(** * glci: release tooling of the Garden Linux image pipeline

    A shallow embedding of the four Python sources
    - [steps.py]                 (pipeline step script generator),
    - [glci/credentialmanager.py] (credential manager),
    - [ci/promote.py]            (release promotion orchestrator),
    - [.cicd-cli.py]             (command line entry point),
    together with the properties the specification states about them.

    Python values are modelled as follows: [str] is [string] (ASCII),
    [None]-able arguments are [option], [int] is [Z], exceptions are the
    constructors of [exn], and everything a function prints, logs, opens or
    calls outside of the repository is recorded, in order, in a trace of
    events next to its outcome. *)

From Stdlib Require Import ZArith Ascii String List Bool Lia.
From Stdlib Require Import DecimalString DecimalPos.
From stdpp Require Import base option list strings gmap.
Import ListNotations.

Local Open Scope Z_scope.
Local Open Scope list_scope.

(** * Python basics *)

Module Py.

(** The exceptions the modelled code raises or lets through. *)
Inductive exn : Type :=
| ValueError (msg : string)
| UnboundLocalError (var : string)
| OSError (path : string)
| SystemExit (code : Z)
| ExternalError (what : string).

(** A computation: the events it produced, in order, and how it ended. *)
Definition M (E A : Type) : Type := (list E * (exn + A))%type.

Definition ret {E A} (a : A) : M E A := ([], inr a).
Definition raise {E A} (e : exn) : M E A := ([], inl e).
Definition emit {E} (ev : E) : M E unit := ([ev], inr tt).

Definition bind {E A B} (m : M E A) (k : A -> M E B) : M E B :=
  match m with
  | (t, inl e) => (t, inl e)
  | (t, inr a) => let (t', r) := k a in (t ++ t', r)
  end.

(** [try: m except: h e] where the handler sees the exception caught. *)
Definition try_except {E A} (m : M E A) (h : exn -> M E A) : M E A :=
  match m with
  | (t, inl e) => let (t', r) := h e in (t ++ t', r)
  | (t, inr a) => (t, inr a)
  end.

Definition trace {E A} (m : M E A) : list E := fst m.
Definition outcome {E A} (m : M E A) : exn + A := snd m.

(** Characters that cannot be written inside a string literal. *)
Definition nl : string := String "010"%char EmptyString.
Definition dq : string := String "034"%char EmptyString.

(** Truth value of a [str]-or-[None] argument: [None] and [''] are false. *)
Definition truthy (o : option string) : bool :=
  match o with
  | Some s => negb (String.eqb s "")
  | None => false
  end.

(** Truth value of a list-or-[None] argument. *)
Definition truthy_list {A} (o : option (list A)) : bool :=
  match o with
  | Some (_ :: _) => true
  | _ => false
  end.

(** The value behind an argument already tested to be true. *)
Definition str_of (o : option string) : string :=
  match o with
  | Some s => s
  | None => ""
  end.

Definition list_of {A} (o : option (list A)) : list A :=
  match o with
  | Some l => l
  | None => []
  end.

(** [f'{x}'] for a [str]-or-[None] value. *)
Definition fmt (o : option string) : string :=
  match o with
  | Some s => s
  | None => "None"
  end.

(** [s.replace(old, new)] for one-character [old] and [new]. *)
Fixpoint replace (old new : ascii) (s : string) : string :=
  match s with
  | EmptyString => EmptyString
  | String c s' =>
      String (if Ascii.eqb c old then new else c) (replace old new s')
  end.

(** [c in s] for a character [c]. *)
Fixpoint occurs (c : ascii) (s : string) : bool :=
  match s with
  | EmptyString => false
  | String x s' => Ascii.eqb x c || occurs c s'
  end.

(** [os.path.basename(p)]: what follows the last slash. *)
Fixpoint basename_from (p acc : string) : string :=
  match p with
  | EmptyString => acc
  | String c p' =>
      if Ascii.eqb c "/" then basename_from p' EmptyString
      else basename_from p' (acc ++ String c EmptyString)
  end.

Definition basename (p : string) : string := basename_from p EmptyString.

Fixpoint ends_with_slash (p : string) : bool :=
  match p with
  | EmptyString => false
  | String c EmptyString => Ascii.eqb c "/"
  | String _ p' => ends_with_slash p'
  end.

(** [os.path.join(a, b)] for a relative [b]. *)
Definition path_join (a b : string) : string :=
  if String.eqb a "" then b
  else if ends_with_slash a then a ++ b
  else a ++ "/" ++ b.

(** [sep.join(l)] is [String.concat sep l]. *)
Definition join (sep : string) (l : list string) : string :=
  String.concat sep l.

End Py.

Notation "x <- m ;; k" := (Py.bind m (fun x => k))
  (at level 100, m at next level, right associativity).
Notation "m ;;; k" := (Py.bind m (fun _ => k))
  (at level 100, right associativity).

(** * steps.py: the pipeline step script generator *)

Module Steps.
Import Py.
Local Open Scope string_scope.

(** [tkn.model.NamedParam], as far as [steps.py] reads it. *)
Record NamedParam : Type := mkNamedParam {
  name : string;
  default : string;
}.

Inductive ScriptType : Type := BOURNE_SHELL | PYTHON3.

(** The only effect of the renderer: opening a file for reading. *)
Inductive event : Type :=
| EvOpen (path : string).

(** References to Python list objects, and the store they point into. *)
Abbreviation loc := nat.

(** A Python [dict] with string keys and values, in insertion order. *)
Definition dict : Type := list (string * string).

(** The store of list objects. *)
Abbreviation heap := (gmap loc (list dict)).

Section Renderer.

(** The file system: the text of each readable file. *)
Variable fs : string -> option string.
(** [os.path.abspath(os.path.dirname(__file__))], fixed when the module
    is loaded. *)
Variable own_dir : string.

Definition scripts_dir : string := own_dir.
Definition steps_dir : string := path_join own_dir "steps".

(** [with open(path) as f: script = f.read()] *)
Definition read_file (path : string) : M event string :=
  emit (EvOpen path) ;;;
  match fs path with
  | Some text => ret text
  | None => raise (OSError path)
  end.

Definition extend_python_path_snippet (param_name : string) : string :=
  let sd_name := basename scripts_dir in
  "sys.path.insert(1,os.path.abspath(os.path.join(" ++ dq ++ "$(params."
    ++ param_name ++ ")" ++ dq ++ "," ++ dq ++ sd_name ++ dq ++ ")))".

(** The argument texts of the generator expressions of [task_step_script]. *)
Definition python_param_arg (param : NamedParam) : string :=
  replace "-" "_" (name param) ++ "='$(params." ++ name param ++ ")'".

Definition python_result_arg (result : NamedParam) : string :=
  replace "-" "_" (name result) ++ "='$(results." ++ name result ++ ".path)'".

Definition shell_param_arg (param : NamedParam) : string :=
  dq ++ "$(params." ++ name param ++ ")" ++ dq.

Definition shell_result_arg (result : NamedParam) : string :=
  dq ++ "$(results." ++ name result ++ ".path)" ++ dq.

(** The three strings the branch on [script_type] binds. *)
Record header : Type := mkHeader {
  shebang : string;
  preamble : string;
  callable_str : string;
}.

Definition render_header (script_type : ScriptType) (callable : option string)
    (params : list NamedParam) (results : option (list NamedParam))
    (repo_path_param : option NamedParam) : header :=
  match script_type with
  | PYTHON3 =>
      let preamble :=
        match repo_path_param with
        | Some p => "import sys,os;" ++ extend_python_path_snippet (name p)
        | None => ""
        end in
      let args := join "," (map python_param_arg params) in
      let args :=
        if truthy_list results
        then args ++ "," ++ join "," (map python_result_arg (list_of results))
        else args in
      mkHeader "#!/usr/bin/env python3" preamble
               (fmt callable ++ "(" ++ args ++ ")")
  | BOURNE_SHELL =>
      let args := join " " (map shell_param_arg params) in
      let args :=
        if truthy_list results
        then " " ++ join " " (map shell_result_arg (list_of results))
        else args in
      mkHeader "#!/usr/bin/env bash" "" (fmt callable ++ " " ++ args)
  end.

(** [task_step_script]. The local [script] stays unbound ([None]) when
    neither source is given; reading it then raises. *)
Definition task_step_script (script_type : ScriptType)
    (callable : option string) (params : list NamedParam)
    (results : option (list NamedParam))
    (repo_path_param : option NamedParam)
    (path inline_script : option string) : M event string :=
  if truthy path && truthy inline_script
  then raise (ValueError "Either use path or inline_script but not both.")
  else
    script <- (if truthy path
               then text <- read_file (str_of path) ;; ret (Some text)
               else if truthy inline_script then ret inline_script
               else ret None) ;;
    let h := render_header script_type callable params results
                           repo_path_param in
    match script with
    | None => raise (UnboundLocalError "script")
    | Some script =>
        if truthy callable
        then ret (join nl [shebang h; preamble h; script; callable_str h])
        else ret (join nl [shebang h; preamble h; script])
    end.

(** ** Step builders

    The lists handed around as [env_vars] and [volume_mounts] are Python
    list objects: a builder receives a reference, and what it appends is
    seen through every other reference to the same object (see [loc] and
    [heap] above). *)

(** [l.append(x)] on the list object at [r]. *)
Definition list_append (r : loc) (x : dict) (h : heap) : heap :=
  alter (fun l => (l ++ [x])%list) r h.

(** Modelled from the spec: [tkn.model.TaskStep] is declared outside of the
    given sources; the builders construct it from a step name, an image
    reference, the rendered script, and the volume mount and environment
    lists, which it keeps as the objects it was given. *)
Record TaskStep : Type := mkTaskStep {
  ts_name : string;
  ts_image : string;
  ts_script : string;
  ts_volumeMounts : loc;
  ts_env : loc;
}.

(** The fields of [params.AllParams] that [promote_single_step] reads. *)
Record AllParams : Type := mkAllParams {
  architecture : NamedParam;
  cicd_cfg_name : NamedParam;
  gardenlinux_committish : NamedParam;
  gardenlinux_epoch : NamedParam;
  modifiers : NamedParam;
  platform : NamedParam;
  build_targets : NamedParam;
  version : NamedParam;
  repo_dir : NamedParam;
  gardenlinux_repo_dir : NamedParam;
}.

(** The two list objects created for the defaults [env_vars=[]] and
    [volume_mounts=[]] when the [def] statement is executed. *)
Record defaults : Type := mkDefaults {
  default_env_vars : loc;
  default_volume_mounts : loc;
}.

Definition gardenlinux_path_entry (params : AllParams) : dict :=
  [("name", "GARDENLINUX_PATH");
   ("value", default (gardenlinux_repo_dir params))].

Definition promote_script_path : string :=
  path_join steps_dir "promote_step.py".

(** [promote_single_step]; an omitted argument is [None] and stands for the
    default object of the function. *)
Definition promote_single_step (d : defaults) (params : AllParams)
    (env_vars volume_mounts : option loc) (h : heap)
    : heap * (exn + (TaskStep * list NamedParam)) :=
  let env_vars := from_option id (default_env_vars d) env_vars in
  let volume_mounts :=
    from_option id (default_volume_mounts d) volume_mounts in
  let step_params :=
    [architecture params; cicd_cfg_name params;
     gardenlinux_committish params; gardenlinux_epoch params;
     modifiers params; platform params; build_targets params;
     version params] in
  let h := list_append env_vars (gardenlinux_path_entry params) h in
  match outcome (task_step_script PYTHON3 (Some "promote_single_step")
                   step_params None (Some (repo_dir params))
                   (Some promote_script_path) None) with
  | inl e => (h, inl e)
  | inr script =>
      (h, inr (mkTaskStep "promote-step" "$(params.step_image)" script
                          volume_mounts env_vars,
               step_params))
  end.

(** A pipeline assembly that builds the promote step once for every entry
    of [ps], never passing [env_vars] or [volume_mounts]. *)
Fixpoint promote_steps (d : defaults) (ps : list AllParams) (h : heap)
    : heap * list (exn + (TaskStep * list NamedParam)) :=
  match ps with
  | [] => (h, [])
  | params :: ps' =>
      let (h', r) := promote_single_step d params None None h in
      let (h'', rs) := promote_steps d ps' h' in
      (h'', r :: rs)
  end.

(** ** Builders that leave the lists alone *)

Definition DEFAULT_IMAGE : string :=
  "eu.gcr.io/gardener-project/glci/job-image:0.1.0".

(** Further fields of [params.AllParams], read by [clone_step] and
    [promote_step]; together with [AllParams] they stand for the one
    [params] object. *)
Record MoreParams : Type := mkMoreParams {
  committish : NamedParam;
  giturl : NamedParam;
  gardenlinux_giturl : NamedParam;
  flavour_set_name : NamedParam;
  promote_target : NamedParam;
}.

(** The field of [results.AllResults] that [promote_step] reads. *)
Record AllResults : Type := mkAllResults {
  manifest_set_key_result : NamedParam;
}.

(** [clone_step]; [d] holds the default lists of this function. *)
Definition clone_step (d : defaults) (params : AllParams) (more : MoreParams)
    (env_vars volume_mounts : option loc)
    : exn + (TaskStep * list NamedParam) :=
  let env_vars := from_option id (default_env_vars d) env_vars in
  let volume_mounts :=
    from_option id (default_volume_mounts d) volume_mounts in
  let step_params :=
    [committish more; giturl more; repo_dir params;
     gardenlinux_committish params; gardenlinux_giturl more;
     gardenlinux_repo_dir params] in
  match outcome (task_step_script PYTHON3 (Some "clone_and_copy")
                   step_params None (Some (repo_dir params))
                   (Some (path_join steps_dir "clone_repo_step.py"))
                   None) with
  | inl e => inl e
  | inr script =>
      inr (mkTaskStep "clone-repo-step" DEFAULT_IMAGE script
                      volume_mounts env_vars,
           step_params)
  end.

(** [promote_step]: the one builder that declares a result. *)
Definition promote_step (d : defaults) (params : AllParams)
    (more : MoreParams) (results : AllResults)
    (env_vars volume_mounts : option loc)
    : exn + (TaskStep * list NamedParam) :=
  let env_vars := from_option id (default_env_vars d) env_vars in
  let volume_mounts :=
    from_option id (default_volume_mounts d) volume_mounts in
  let step_params :=
    [cicd_cfg_name params; gardenlinux_committish params;
     flavour_set_name more; gardenlinux_epoch params; promote_target more;
     build_targets params; version params] in
  let result_params := [manifest_set_key_result results] in
  match outcome (task_step_script PYTHON3 (Some "promote_step")
                   step_params (Some result_params)
                   (Some (repo_dir params))
                   (Some (path_join steps_dir "promote_step.py")) None) with
  | inl e => inl e
  | inr script =>
      inr (mkTaskStep "finalise-promotion-step" "$(params.step_image)"
                      script volume_mounts env_vars,
           step_params)
  end.

End Renderer.

End Steps.

(** * glci/credentialmanager.py *)

Module CredentialManager.
Import Py.
Local Open Scope string_scope.

Inductive CCconfigPrecedence : Type := ALWAYS | PROBE | NEVER.

Definition value (p : CCconfigPrecedence) : string :=
  match p with
  | ALWAYS => "always"
  | PROBE => "probe"
  | NEVER => "never"
  end.

(** What reaches [use_cc_config]: a member of the enum, as the signatures
    declare and as the default of [get_instance] is, or the plain [str]
    that the [--use-cc-config] option of [add_credential_parsing_args]
    stores. *)
Inductive policy_arg : Type :=
| Member (m : CCconfigPrecedence)
| Str (s : string).

(** [self.value == str]: a [str] equals a [str] with the same characters
    and nothing else; a member of a plain [enum.Enum] is not a [str]. *)
Definition equals (self : CCconfigPrecedence) (str : policy_arg) : bool :=
  match str with
  | Str s => String.eqb (value self) s
  | Member _ => false
  end.

Inductive event : Type :=
| LogInfo (msg : string).

(** The instance attributes of a [CredentialManager]. *)
Record instance : Type := mkInstance {
  use_cc_config_server : bool;
}.

(** [os.environ]. *)
Abbreviation environ := (gmap string string).

Definition getenv (env : environ) (key : string) : option string :=
  env !! key.

Definition cc_config_server_available (env : environ) : bool :=
  truthy (getenv env "SECRETS_SERVER_ENDPOINT")
  && truthy (getenv env "SECRETS_SERVER_CONCOURSE_CFG_NAME").

(** [CredentialManager.__init__]: what it logs and the object it leaves. *)
Definition __init__ (env : environ) (use_cc_config : policy_arg)
    : list event * instance :=
  if equals ALWAYS use_cc_config
     || (equals PROBE use_cc_config && cc_config_server_available env)
  then ([LogInfo "Using cc-config secret server to obtain credentials"],
        mkInstance true)
  else ([LogInfo "Obtaining cloud provider credentials from environment"],
        mkInstance false).

(** The class: every [CredentialManager] object constructed so far, in
    order of construction (an object is referred to by its position), and
    the class attribute [_instance]. *)
Record class_state : Type := mkClass {
  objects : list instance;
  _instance : option nat;
}.

Definition initial : class_state := mkClass [] None.

(** [CredentialManager.get_instance]; an omitted [use_cc_config] is [None]
    and stands for the default [CCconfigPrecedence.PROBE]. *)
Definition get_instance (env : environ) (use_cc_config : option policy_arg)
    (st : class_state) : class_state * (list event * nat) :=
  let use_cc_config := from_option id (Member PROBE) use_cc_config in
  match _instance st with
  | None =>
      let (log, obj) := __init__ env use_cc_config in
      let r := length (objects st) in
      (mkClass (objects st ++ [obj])%list (Some r), (log, r))
  | Some r => (st, ([], r))
  end.

(** A process: the calls of [get_instance] it makes, each with the
    environment it finds and the policy it passes. *)
Fixpoint run (calls : list (environ * option policy_arg)) (st : class_state)
    : class_state * list nat :=
  match calls with
  | [] => (st, [])
  | (env, p) :: calls' =>
      let (st', res) := get_instance env p st in
      let (st'', rs) := run calls' st' in
      (st'', snd res :: rs)
  end.

(** The mode of the manager a reference denotes. *)
Definition mode_of (st : class_state) (r : nat) : option bool :=
  use_cc_config_server <$> objects st !! r.

(** ** The command line option and the accessors *)

(** [CCconfigPrecedence._member_map_.values()], in order of definition. *)
Definition members : list CCconfigPrecedence := [ALWAYS; PROBE; NEVER].

(** [add_credential_parsing_args]: the choices and the default of
    [--use-cc-config]. *)
Definition choices : list string := map value members.
Definition default_choice : string := "probe".

(** What the accessors call outside of the repository, with the arguments
    they pass; [CccCloudStorageClient] receives the configuration that
    [CfgFactoryGcp] resolved for the name it carries. *)
Inductive call : Type :=
| CccAwsSession (aws_cfg region_name : option string)
| Boto3Session (profile_name region_name : option string)
| PrintAwsCfg (aws_cfg : option string)
| SessionClient (service : string)
| Boto3AnonymousClient (service : string) (region_name : option string)
| CfgFactoryGcp (gcp_cfg : string)
| CccCloudStorageClient (gcp_cfg : string)
| StorageClient (project : string).

(** The calls that reach the secret service. *)
Definition uses_secret_service (c : call) : bool :=
  match c with
  | CccAwsSession _ _ | CfgFactoryGcp _ | CccCloudStorageClient _ => true
  | _ => false
  end.

(** The calls that read credentials of the local environment. *)
Definition uses_local_credentials (c : call) : bool :=
  match c with
  | Boto3Session _ _ | StorageClient _ => true
  | _ => false
  end.

Definition get_aws_session (self : instance)
    (aws_cfg region_name : option string) : list call :=
  if use_cc_config_server self
  then [CccAwsSession aws_cfg region_name]
  else [PrintAwsCfg aws_cfg; Boto3Session aws_cfg region_name].

Definition get_s3_client (self : instance)
    (aws_cfg region_name : option string) : list call :=
  (get_aws_session self aws_cfg region_name ++ [SessionClient "s3"])%list.

Definition get_anonymous_s3_client (self : instance)
    (region_name : option string) : list call :=
  [Boto3AnonymousClient "s3" region_name].

Definition get_gcp_storage_client (self : instance) (gcp_cfg : string)
    : list call :=
  if use_cc_config_server self
  then [CfgFactoryGcp gcp_cfg; CccCloudStorageClient gcp_cfg]
  else [StorageClient gcp_cfg].

(** One use of the manager, and what a sequence of uses calls. *)
Inductive request : Type :=
| AwsSession (aws_cfg region_name : option string)
| S3Client (aws_cfg region_name : option string)
| AnonymousS3Client (region_name : option string)
| GcpStorageClient (gcp_cfg : string).

Definition serve (self : instance) (r : request) : list call :=
  match r with
  | AwsSession aws_cfg region_name => get_aws_session self aws_cfg region_name
  | S3Client aws_cfg region_name => get_s3_client self aws_cfg region_name
  | AnonymousS3Client region_name => get_anonymous_s3_client self region_name
  | GcpStorageClient gcp_cfg => get_gcp_storage_client self gcp_cfg
  end.

Definition serve_all (self : instance) (rs : list request) : list call :=
  concat (map (serve self) rs).

End CredentialManager.

(** * ci/promote.py *)

Module Promote.
Import Py.
Local Open Scope string_scope.

(** [glci.model.OnlineReleaseManifest] and [glci.model.CicdCfg], as far as
    [publish_image] reads them. *)
Record OnlineReleaseManifest : Type := mkManifest {
  platform : string;
  published_image_metadata : option string;
}.

Record CicdCfg : Type := mkCicdCfg {
  (** [cicd_cfg.publish.azure.shared_gallery_cfg_name] *)
  shared_gallery_cfg_name : option string;
}.

Inductive publish_routine : Type :=
| _publish_alicloud_image
| _publish_aws_image
| _publish_gcp_image
| _publish_azure_shared_image_gallery
| _publish_azure_image
| _publish_openstack_image
| _publish_oci_image.

Inductive cleanup_routine : Type :=
| _clean_alicloud_image
| _cleanup_aws
| _cleanup_openstack_image.

Inductive event : Type :=
| LogInfo (msg platform : string)
| LogWarning (msg platform : string)
| CallPublish (f : publish_routine)
| CallCleanup (f : cleanup_routine)
| PrintExc (e : exn).

Section Orchestrator.

(** The provider side: how a publish or cleanup routine ends when called. *)
Variable run_publish :
  publish_routine -> OnlineReleaseManifest -> CicdCfg ->
  exn + OnlineReleaseManifest.
Variable run_cleanup :
  cleanup_routine -> OnlineReleaseManifest -> CicdCfg -> exn + unit.

Definition call_publish (f : publish_routine)
    (release : OnlineReleaseManifest) (cicd_cfg : CicdCfg)
    : M event OnlineReleaseManifest :=
  ([CallPublish f], run_publish f release cicd_cfg).

Definition call_cleanup (f : cleanup_routine)
    (release : OnlineReleaseManifest) (cicd_cfg : CicdCfg) : M event unit :=
  ([CallCleanup f], run_cleanup f release cicd_cfg).

(** The [if]/[elif] chain on [release.platform]. *)
Definition select (release : OnlineReleaseManifest) (cicd_cfg : CicdCfg)
    : option (publish_routine * option cleanup_routine) :=
  if String.eqb (platform release) "ali"
  then Some (_publish_alicloud_image, Some _clean_alicloud_image)
  else if String.eqb (platform release) "aws"
  then Some (_publish_aws_image, Some _cleanup_aws)
  else if String.eqb (platform release) "gcp"
  then Some (_publish_gcp_image, None)
  else if String.eqb (platform release) "azure"
  then Some (if truthy (shared_gallery_cfg_name cicd_cfg)
             then _publish_azure_shared_image_gallery
             else _publish_azure_image, None)
  else if String.eqb (platform release) "openstack"
  then Some (_publish_openstack_image, Some _cleanup_openstack_image)
  else if String.eqb (platform release) "oci"
  then Some (_publish_oci_image, None)
  else None.

Definition publish_image (release : OnlineReleaseManifest)
    (cicd_cfg : CicdCfg) : M event OnlineReleaseManifest :=
  emit (LogInfo "running release for" (platform release)) ;;;
  match select release cicd_cfg with
  | None =>
      emit (LogWarning "do not know how to publish" (platform release)) ;;;
      ret release
  | Some (publish_function, cleanup_function) =>
      try_except (call_publish publish_function release cicd_cfg)
        (fun e =>
           emit (PrintExc e) ;;;
           match cleanup_function with
           | Some cleanup => call_cleanup cleanup release cicd_cfg
           | None =>
               emit (LogWarning "do not know how to cleanup"
                                (platform release))
           end ;;;
           raise e)
  end.

End Orchestrator.

(** How often the provider side was called in a trace. *)
Definition is_publish_call (ev : event) : bool :=
  match ev with CallPublish _ => true | _ => false end.

Definition is_cleanup_call (ev : event) : bool :=
  match ev with CallCleanup _ => true | _ => false end.

Definition publish_calls (t : list event) : nat :=
  length (List.filter is_publish_call t).

Definition cleanup_calls (t : list event) : nat :=
  length (List.filter is_cleanup_call t).

End Promote.

(** ** The cleanup routine of aws in [ci/promote.py] *)

Module CleanupAws.
Import Py Promote.
Local Open Scope string_scope.

Inductive aws_event : Type :=
| UnregisterImages (aws_cfg_name image_name : string).

Section Accounts.

(** [glci.aws.target_image_name_for_release] and how
    [glci.aws.unregister_images_by_name] ends for an account. *)
Variable target_image_name_for_release : OnlineReleaseManifest -> string.
Variable unregister_images_by_name : string -> string -> option exn.

(** The [for] loop over [cicd_cfg.publish.aws.aws_cfg_names]. *)
Fixpoint unregister_in (image_name : string) (aws_cfg_names : list string)
    : M aws_event unit :=
  match aws_cfg_names with
  | [] => ret tt
  | aws_cfg_name :: rest =>
      emit (UnregisterImages aws_cfg_name image_name) ;;;
      match unregister_images_by_name aws_cfg_name image_name with
      | Some e => raise e
      | None => unregister_in image_name rest
      end
  end.

(** [_cleanup_aws], given the account names of the configuration. *)
Definition _cleanup_aws (release : OnlineReleaseManifest)
    (aws_cfg_names : list string) : M aws_event unit :=
  unregister_in (target_image_name_for_release release) aws_cfg_names.

End Accounts.

End CleanupAws.

(** * .cicd-cli.py: the command line entry point *)

Module Cli.
Import Py.
Local Open Scope string_scope.

(** ** Text helpers of the Python runtime *)

Definition code (c : ascii) : Z := Z.of_nat (nat_of_ascii c).

Definition is_digit (c : ascii) : bool :=
  ((48 <=? code c) && (code c <=? 57))%Z.

(** The character class [[\d\.]]. *)
Definition version_char (c : ascii) : bool := is_digit c || Ascii.eqb c ".".

(** What may follow the first character of a match of [^[\d\.]+$]: more
    characters of the class, then the end of the string, or one newline
    that ends the string. *)
Fixpoint match_rest (s : string) : bool :=
  match s with
  | EmptyString => true
  | String c s' =>
      if version_char c then match_rest s'
      else Ascii.eqb c "010" && String.eqb s' ""
  end.

(** [re.compile(r'^[\d\.]+$').match(s)], as a truth value. *)
Definition pattern_match (s : string) : bool :=
  match s with
  | EmptyString => false
  | String c s' => version_char c && match_rest s'
  end.

(** [s.split('.')[0]] *)
Fixpoint first_segment (s : string) : string :=
  match s with
  | EmptyString => EmptyString
  | String c s' =>
      if Ascii.eqb c "." then EmptyString else String c (first_segment s')
  end.

(** White space that [int] skips at both ends of an ASCII [str]: the
    blank and the characters tab, newline, vertical tab, form feed and
    carriage return. *)
Definition is_space (c : ascii) : bool :=
  ((code c =? 32) || ((9 <=? code c) && (code c <=? 13)))%Z.

Fixpoint lstrip (l : list ascii) : list ascii :=
  match l with
  | c :: l' => if is_space c then lstrip l' else l
  | [] => []
  end.

Definition strip (s : string) : string :=
  string_of_list_ascii
    (rev (lstrip (rev (lstrip (list_ascii_of_string s))))).

(** Decimal digits, single underscores allowed between two digits. *)
Fixpoint parse_digits (s : string) (acc : Z) (after_digit : bool)
    : option Z :=
  match s with
  | EmptyString => if after_digit then Some acc else None
  | String c s' =>
      if is_digit c then parse_digits s' (10 * acc + (code c - 48)) true
      else if Ascii.eqb c "_" && after_digit then parse_digits s' acc false
      else None
  end.

(** The integer literal [int] reads from an ASCII [str]. [int] refuses a
    text of more than 4300 digits as well; that limit is not part of
    [parse_int], and what is stated about a text the user supplies bounds
    its length. *)
Definition parse_int (s : string) : option Z :=
  match strip s with
  | String "-" s' => Z.opp <$> parse_digits s' 0 false
  | String "+" s' => parse_digits s' 0 false
  | s' => parse_digits s' 0 false
  end.


(** [str(n)] for an [int]. *)
Definition str_of_int (n : Z) : string := NilZero.string_of_int (Z.to_int n).

(** ** The commands *)

Inductive event : Type :=
| Print (text : string)
| PrintUsedArgs
| S3Download (aws_cfg bucket_name s3_key file_name : string)
| CloseFile (file_name : string)
| RemoveFile (file_name : string)
| YamlDump.

(** [int(s)] *)
Definition int (s : string) : M event Z :=
  match parse_int s with
  | Some n => ret n
  | None => raise (ValueError "invalid literal for int() with base 10")
  end.

(** [int(version.split('.')[0])]: the epoch that [replicate_blobs] and
    [publish_release_set] derive from a version, and the leading segment
    that [_fix_version] compares with the epoch. *)
Definition epoch_of_version (version : string) : M event Z :=
  int (first_segment version).

(** [glci.model.S3_ReleaseFile] *)
Record S3_ReleaseFile : Type := mkS3File {
  name : string;
  suffix : string;
  s3_key : string;
  s3_bucket_name : string;
}.

(** The [logs] attribute of a manifest: absent, a structured reference, or
    the bare key of the old format. *)
Inductive log_ref : Type :=
| NoLogs
| LogFile (f : S3_ReleaseFile)
| LogKey (key : string).

Record OnlineReleaseManifest : Type := mkManifest {
  logs : log_ref;
  paths : list S3_ReleaseFile;
}.

(** [cicd_cfg.build], as far as the download reads it. *)
Record cicd_cfg : Type := mkCicdCfg {
  aws_cfg_name : string;
  s3_bucket_name_of_build : string;
}.

(** The parsed arguments of [retrieve-single-manifest] that the modelled
    part reads; [outfile = None] is [sys.stdout]. *)
Record parsed_args : Type := mkParsed {
  version : string;
  gardenlinux_epoch : Z;
  download : option string;
  outfile : option string;
}.

(** What a command handler returns: [None] or a result code. *)
Definition retval : Type := option Z.

Section Commands.

(** [glci.model._parse_version_from_workingtree()] *)
Variable workingtree_version : string.
(** How [s3_client.download_file(bucket, key, file)] ends. *)
Variable download_file : string -> string -> string -> option exn.
(** [os.path.exists] *)
Variable path_exists : string -> bool.
(** The configuration [glci.util.cicd_cfg(parsed.cicd_cfg)] loads, and the
    manifest [find_release] finds for the resolved version. *)
Variable cfg : cicd_cfg.
Variable find_release : string -> option OnlineReleaseManifest.
(** The other names of the module: what calling each one does. *)
Variable other_symbols : string -> option (M event retval).

Definition when (b : bool) (m : M event unit) : M event unit :=
  if b then m else ret tt.

Definition _fix_version (parsed_version : string) (parsed_epoch : Z)
    : M event string :=
  let is_proper_version := pattern_match parsed_version in
  result <-
    (if negb (String.eqb parsed_version workingtree_version)
     then
       when (negb is_proper_version)
            (emit (Print (">>> WARNING: " ++ parsed_version
                          ++ " is not a semver version! <<<"))) ;;;
       ret parsed_version
     else if is_proper_version then ret parsed_version
     else ret (str_of_int parsed_epoch ++ ".0")) ;;
  leading <- int (first_segment result) ;;
  when (negb (parsed_epoch =? leading)%Z)
       (emit (Print (">>> WARNING: version " ++ result
                     ++ " does not match epoch " ++ str_of_int parsed_epoch
                     ++ "! <<<"))) ;;;
  ret result.

Definition _download_obj_to_file (c : cicd_cfg)
    (bucket_name s3_key file_name : string) : M event Z :=
  emit (S3Download (aws_cfg_name c) bucket_name s3_key file_name) ;;;
  match download_file bucket_name s3_key file_name with
  | Some e => raise e
  | None => ret 0
  end.

(** [[entry for entry in manifest.paths if entry.name == name]] *)
Definition matching (n : string) (l : list S3_ReleaseFile)
    : list S3_ReleaseFile :=
  List.filter (fun entry => String.eqb (name entry) n) l.

(** The way out of the selection: a result code, or the object to fetch. *)
Definition _download_release_artifact (c : cicd_cfg) (n outfile : string)
    (manifest : OnlineReleaseManifest) : M event Z :=
  target <-
    (if String.eqb n "log" || String.eqb n "logs"
     then
       match logs manifest with
       | NoLogs | LogKey EmptyString =>
           emit (Print "Error: No logs attached to release manifest") ;;;
           ret (inl 1)
       | LogFile log_obj => ret (inr (s3_key log_obj, s3_bucket_name log_obj))
       | LogKey log_obj => ret (inr (log_obj, s3_bucket_name_of_build c))
       end
     else
       match matching n (paths manifest) with
       | [] =>
           emit (Print ("Error: No object in release manifest with name "
                        ++ n)) ;;;
           ret (inl 1)
       | first :: more =>
           when (1 <? Z.of_nat (length (first :: more)))%Z
                (emit (Print ("Warning.: Found more than one file with name "
                              ++ n ++ ", using first one"))) ;;;
           ret (inr (s3_key first, s3_bucket_name first))
       end) ;;
  match target with
  | inl res_code => ret res_code
  | inr (key, bucket) =>
      emit (Print ("Downloading object with S3-key: " ++ key
                   ++ " from bucket " ++ bucket ++ ", to " ++ outfile)) ;;;
      _download_obj_to_file c bucket key outfile
  end.

(** [retrieve_single_manifest], from the parsed arguments on. *)
Definition retrieve_single_manifest (parsed : parsed_args)
    : M event retval :=
  v <- _fix_version (version parsed) (gardenlinux_epoch parsed) ;;
  emit PrintUsedArgs ;;;
  match find_release v with
  | None =>
      emit (Print "ERROR: no such release found") ;;;
      raise (SystemExit 1)
  | Some release =>
      if truthy (download parsed)
      then
        let d := str_of (download parsed) in
        outfile_name <-
          match outfile parsed with
          | None =>
              if String.eqb d "log" || String.eqb d "logs"
              then ret "build_log.zip"
              else ret d
          | Some f =>
              emit (CloseFile f) ;;;
              when (path_exists f) (emit (RemoveFile f)) ;;;
              ret f
          end ;;
        res_code <- _download_release_artifact cfg d outfile_name release ;;
        ret (Some res_code)
      else
        emit YamlDump ;;;
        ret None
  end.

(** [getattr(module_symbols, cmd_name, None)] *)
Definition module_symbols (parsed : parsed_args) (cmd_name : string)
    : option (M event retval) :=
  if String.eqb cmd_name "retrieve_single_manifest"
  then Some (retrieve_single_manifest parsed)
  else other_symbols cmd_name.

(** [main]: [argv0] is [sys.argv[0]], [parsed] what the handler will parse
    from the rest of the command line. *)
Definition main (argv0 : string) (parsed : parsed_args) : M event unit :=
  let cmd_name := replace "-" "_" (basename argv0) in
  match module_symbols parsed cmd_name with
  | None =>
      emit (Print ("ERROR: " ++ cmd_name ++ " is not defined")) ;;;
      raise (SystemExit 1)
  | Some func => func ;;; ret tt
  end.

End Commands.

(** The exit status of the interpreter that ran [main()] as its script. *)
Definition exit_status {A} (m : M event A) : Z :=
  match outcome m with
  | inr _ => 0
  | inl (SystemExit c) => c
  | inl _ => 1
  end.

(** A requested name that stands for an artifact, not for the logs. *)
Definition named (n : string) : Prop := n <> "log" /\ n <> "logs".

Definition is_download (ev : event) : bool :=
  match ev with S3Download _ _ _ _ => true | _ => false end.

(** ** The publish-images phase of [publish_release_set] *)





Section PublishImages.

(** [cfg.target(platform=..., absent_ok=True)], as the text [print] shows. *)
Variable target : string -> option string.




End PublishImages.



End Cli.

(** * What the specification says, in its own words *)

Module Spec.
Import Py.
Local Open Scope string_scope.

(** "Output is the concatenation of non-empty lines among: shebang,
    preamble, script body, invocation line." *)
Definition nonempty_lines (lines : list string) : string :=
  join nl (List.filter (fun l => negb (String.eqb l "")) lines).

(** The lines named there: the invocation line is among them only for a
    callable name. *)
Definition rendered_lines (h : Steps.header) (body : string)
    (callable : option string) : list string :=
  ([Steps.shebang h; Steps.preamble h; body]
   ++ if truthy callable then [Steps.callable_str h] else [])%list.

(** "the invocation line calls the callable with parameters passed
    positionally as quoted placeholders, followed by quoted result-path
    placeholders" *)
Definition shell_invocation (callable : string)
    (params results : list Steps.NamedParam) : string :=
  callable ++ " "
  ++ join " " (map Steps.shell_param_arg params
               ++ map Steps.shell_result_arg results)%list.

(** Exactly one script source is supplied and can be read: the events of
    reading it and the script body it yields. *)
Inductive script_source (fs : string -> option string)
    : option string -> option string -> list Steps.event -> string -> Prop :=
| source_inline path body :
    truthy path = false -> body <> "" ->
    script_source fs path (Some body) [] body
| source_file p inline_script body :
    p <> "" -> truthy inline_script = false -> fs p = Some body ->
    script_source fs (Some p) inline_script [Steps.EvOpen p] body.

(** "calls the callable with each parameter passed as name=value ...; each
    result (if any) is passed the same way": one list of arguments,
    separated by commas. *)
Definition python_invocation (callable : string)
    (params results : list Steps.NamedParam) : string :=
  callable ++ "("
  ++ join "," (map Steps.python_param_arg params
               ++ map Steps.python_result_arg results)%list
  ++ ")".



(** The platforms of the promotion dispatch with a cleanup routine, and
    those without. *)
Definition with_cleanup : list string := ["ali"; "aws"; "openstack"].
Definition without_cleanup : list string := ["gcp"; "azure"; "oci"].

End Spec.

(** * Concrete inputs *)

Module Examples.
Import Py.
Local Open Scope string_scope.

(** A file system without any file, and one with the promote step. *)
Definition no_files : string -> option string := fun _ => None.
Definition one_file : string -> option string :=
  fun p => if String.eqb p "/ci/steps/promote_step.py"
           then Some "import promote" else None.

Definition foo_bar := Steps.mkNamedParam "foo-bar" "".
Definition baz := Steps.mkNamedParam "baz" "".
Definition out := Steps.mkNamedParam "out" "".
Definition repo := Steps.mkNamedParam "repo_dir" "/workspace/repo".

(** The store right after [steps.py] has been loaded: the two default
    lists of [promote_single_step] exist and are empty. *)
Definition step_defaults : Steps.defaults := Steps.mkDefaults 0%nat 1%nat.
Definition heap_after_import : gmap nat (list Steps.dict) :=
  <[0%nat := []]> (<[1%nat := []]> ∅).

Definition all_params : Steps.AllParams :=
  Steps.mkAllParams
    (Steps.mkNamedParam "architecture" "amd64")
    (Steps.mkNamedParam "cicd_cfg_name" "default")
    (Steps.mkNamedParam "gardenlinux_committish" "main")
    (Steps.mkNamedParam "gardenlinux_epoch" "")
    (Steps.mkNamedParam "modifiers" "")
    (Steps.mkNamedParam "platform" "")
    (Steps.mkNamedParam "build_targets" "build")
    (Steps.mkNamedParam "version" "")
    repo
    (Steps.mkNamedParam "gardenlinux_repo_dir" "/workspace/gardenlinux_git").

(** A file system with the scripts of the clone and the promote step. *)
Definition two_files : string -> option string :=
  fun p => if String.eqb p "/ci/steps/promote_step.py"
           then Some "import promote"
           else if String.eqb p "/ci/steps/clone_repo_step.py"
           then Some "import clone"
           else None.

Definition more_params : Steps.MoreParams :=
  Steps.mkMoreParams
    (Steps.mkNamedParam "committish" "main")
    (Steps.mkNamedParam "giturl" "")
    (Steps.mkNamedParam "gardenlinux_giturl" "")
    (Steps.mkNamedParam "flavour_set_name" "all")
    (Steps.mkNamedParam "promote_target" "snapshots").

Definition all_results : Steps.AllResults :=
  Steps.mkAllResults (Steps.mkNamedParam "manifest_set_key_result" "").

(** A store with one more list, made by a caller, that holds an entry. *)
Definition heap_with_caller_list : gmap nat (list Steps.dict) :=
  <[2%nat := [[("name", "HOME"); ("value", "/root")]]]> heap_after_import.

(** A provider side on which every publish routine fails, with a cleanup
    that works and with one that fails as well. *)
Definition publish_fails (f : Promote.publish_routine)
    (release : Promote.OnlineReleaseManifest) (cfg : Promote.CicdCfg)
    : exn + Promote.OnlineReleaseManifest :=
  inl (ExternalError "publish failed").

Definition cleanup_works (f : Promote.cleanup_routine)
    (release : Promote.OnlineReleaseManifest) (cfg : Promote.CicdCfg)
    : exn + unit :=
  inr tt.

Definition cleanup_fails (f : Promote.cleanup_routine)
    (release : Promote.OnlineReleaseManifest) (cfg : Promote.CicdCfg)
    : exn + unit :=
  inl (ExternalError "cleanup failed").

Definition aws_release : Promote.OnlineReleaseManifest :=
  Promote.mkManifest "aws" None.

Definition plain_cfg : Promote.CicdCfg := Promote.mkCicdCfg None.

(** A provider side on which publishing works, an azure release with a
    configuration that names a gallery, and a release for a platform the
    orchestrator does not know. *)
Definition publish_works (f : Promote.publish_routine)
    (release : Promote.OnlineReleaseManifest) (cfg : Promote.CicdCfg)
    : exn + Promote.OnlineReleaseManifest :=
  inr (Promote.mkManifest (Promote.platform release) (Some "image-1")).

Definition azure_release : Promote.OnlineReleaseManifest :=
  Promote.mkManifest "azure" None.
Definition gallery_cfg : Promote.CicdCfg := Promote.mkCicdCfg (Some "gallery").
Definition vmware_release : Promote.OnlineReleaseManifest :=
  Promote.mkManifest "vmware" None.

(** Three aws accounts of which the second cannot be cleaned. *)
Definition image_name (release : Promote.OnlineReleaseManifest) : string :=
  "gardenlinux-aws-27.1".
Definition second_account_fails (aws_cfg_name image : string) : option exn :=
  if String.eqb aws_cfg_name "account-b"
  then Some (ExternalError "access denied") else None.

(** A manifest with two artifacts named a and one named b, and a command
    line environment in which it is the release found, every download
    succeeds and no other command is defined. *)
Definition manifest_aab : Cli.OnlineReleaseManifest :=
  Cli.mkManifest Cli.NoLogs
    [Cli.mkS3File "a" ".tar" "objects/a1" "bucket-1";
     Cli.mkS3File "a" ".raw" "objects/a2" "bucket-2";
     Cli.mkS3File "b" ".log" "objects/b" "bucket-1"].

Definition download_works (bucket_name s3_key file_name : string)
    : option exn := None.
Definition nothing_exists (path : string) : bool := false.
Definition build_cfg : Cli.cicd_cfg := Cli.mkCicdCfg "default" "bucket-0".
Definition release_found (version : string)
    : option Cli.OnlineReleaseManifest := Some manifest_aab.
Definition no_other_symbols (cmd_name : string)
    : option (M Cli.event Cli.retval) := None.

(** The same manifest with a structured log reference, a command line
    environment in which no release is found and every file exists. *)
Definition manifest_with_logs : Cli.OnlineReleaseManifest :=
  Cli.mkManifest
    (Cli.LogFile (Cli.mkS3File "log" ".zip" "objects/log" "bucket-logs"))
    (Cli.paths manifest_aab).
Definition release_missing (version : string)
    : option Cli.OnlineReleaseManifest := None.
Definition everything_exists (path : string) : bool := true.

End Examples.

(** * Properties of the Python helpers *)

Section PyFacts.
Import Py.
Local Open Scope string_scope.

Lemma truthy_Some (s : string) : s <> "" -> truthy (Some s) = true.
Proof.
  intros Hs. unfold truthy.
  destruct (String.eqb_spec s ""); [contradiction | reflexivity].
Qed.

Lemma truthy_true (o : option string) :
  truthy o = true -> exists s, o = Some s /\ s <> "".
Proof.
  destruct o as [s|]; simpl; [|discriminate].
  destruct (String.eqb_spec s ""); [discriminate|]. eauto.
Qed.

Lemma append_cons (x : ascii) (a b : string) :
  String x a ++ b = String x (a ++ b).
Proof. reflexivity. Qed.

Lemma append_assoc (a b c : string) : (a ++ b) ++ c = a ++ b ++ c.
Proof.
  induction a as [|x a IH]; [reflexivity|].
  now rewrite !append_cons, IH.
Qed.

Lemma append_nil_r (a : string) : a ++ "" = a.
Proof.
  induction a as [|x a IH]; [reflexivity|].
  now rewrite append_cons, IH.
Qed.

Lemma join_cons (sep x y : string) (l : list string) :
  join sep (x :: y :: l) = x ++ sep ++ join sep (y :: l).
Proof. reflexivity. Qed.

(** Joining two non-empty lists joins each and puts one separator between. *)
Lemma join_app (sep : string) (l1 l2 : list string) :
  l1 <> [] -> l2 <> [] ->
  join sep (l1 ++ l2)%list = join sep l1 ++ sep ++ join sep l2.
Proof.
  induction l1 as [|x l1 IH]; intros H1 H2; [contradiction|].
  destruct l1 as [|y l1].
  - destruct l2 as [|z l2]; [contradiction | reflexivity].
  - change ((x :: y :: l1) ++ l2)%list with (x :: y :: (l1 ++ l2))%list.
    rewrite !join_cons, append_assoc. f_equal. rewrite append_assoc. f_equal.
    apply (IH ltac:(discriminate) H2).
Qed.

(** [sep + sep.join(l)] puts the separator in front of every element. *)
Lemma sep_join (sep : string) (l : list string) :
  l <> [] ->
  sep ++ join sep l = String.concat "" (map (String.append sep) l).
Proof.
  induction l as [|x l IH]; intros H; [contradiction|].
  destruct l as [|y l].
  - simpl. reflexivity.
  - rewrite join_cons.
    change (map (String.append sep) (x :: y :: l))
      with ((sep ++ x) :: map (String.append sep) (y :: l)).
    change (String.concat "" ((sep ++ x) :: map (String.append sep) (y :: l)))
      with ((sep ++ x) ++ "" ++ String.concat "" (map (String.append sep) (y :: l))).
    rewrite <- IH by discriminate. simpl. now rewrite append_assoc.
Qed.

(** [replace] keeps the length and leaves no [old] behind. *)
Lemma replace_length (old new : ascii) (s : string) :
  String.length (replace old new s) = String.length s.
Proof. induction s as [|c s IH]; simpl; [reflexivity | now rewrite IH]. Qed.

Lemma replace_removes (old new : ascii) (s : string) :
  old <> new -> occurs old (replace old new s) = false.
Proof.
  intros Hne. induction s as [|c s IH]; simpl; [reflexivity|].
  rewrite IH, orb_false_r.
  destruct (Ascii.eqb_spec c old) as [->|Hc].
  - destruct (Ascii.eqb_spec new old); [congruence | reflexivity].
  - destruct (Ascii.eqb_spec c old); [contradiction | reflexivity].
Qed.

End PyFacts.

(** * The step script generator *)

Section StepsFacts.
Import Py Steps Spec.
Local Open Scope string_scope.

Variable fs : string -> option string.
Variable own_dir : string.

(** With exactly one readable source the renderer returns, having opened
    at most that file, and joins all of its lines. *)
Lemma render_ok script_type callable params results repo_path_param
    path inline_script t body :
  script_source fs path inline_script t body ->
  task_step_script fs own_dir script_type callable params results
                   repo_path_param path inline_script
  = (t, inr (join nl (rendered_lines
                        (render_header own_dir script_type callable params
                                       results repo_path_param)
                        body callable))).
Proof.
  intros Hsrc. unfold task_step_script, rendered_lines.
  destruct Hsrc as [path body Hpath Hbody | p inline_script body Hp Hin Hfs].
  - rewrite Hpath, (truthy_Some body Hbody). simpl.
    destruct (truthy callable); reflexivity.
  - rewrite (truthy_Some p Hp), Hin. unfold read_file. simpl. rewrite Hfs.
    simpl. destruct (truthy callable); reflexivity.
Qed.

(** Without any source the local [script] is read before it is bound. *)
Lemma render_unbound script_type callable params results repo_path_param
    path inline_script :
  truthy path = false -> truthy inline_script = false ->
  task_step_script fs own_dir script_type callable params results
                   repo_path_param path inline_script
  = ([], inl (UnboundLocalError "script")).
Proof.
  intros Hp Hi. unfold task_step_script. rewrite Hp, Hi. reflexivity.
Qed.

(** The shell branch replaces the parameters by the results. *)
Lemma shell_results_replace_params callable params r results :
  callable_str (render_header own_dir BOURNE_SHELL callable params
                              (Some (r :: results)) None)
  = fmt callable ++ " " ++ " "
    ++ join " " (map shell_result_arg (r :: results)).
Proof. reflexivity. Qed.

(** Without results the shell invocation is the one of the specification. *)
Lemma shell_no_results_meets_spec callable params results :
  truthy_list results = false ->
  callable_str (render_header own_dir BOURNE_SHELL (Some callable) params
                              results None)
  = shell_invocation callable params [].
Proof.
  intros Hres. unfold render_header, shell_invocation. rewrite Hres.
  simpl. now rewrite app_nil_r.
Qed.

(** The arguments of the embedded-interpreter invocation, result by
    result. *)
Lemma python_args callable params results repo_path_param :
  callable_str (render_header own_dir PYTHON3 callable params results
                              repo_path_param)
  = fmt callable ++ "("
    ++ (join "," (map python_param_arg params)
        ++ String.concat ""
             (map (fun r => "," ++ python_result_arg r) (list_of results)))
    ++ ")".
Proof.
  unfold render_header. cbn [callable_str].
  destruct results as [[|r results]|]; cbn [truthy_list list_of].
  - cbn [map String.concat]. now rewrite append_nil_r.
  - rewrite sep_join by (cbn; discriminate). now rewrite map_map.
  - cbn [map String.concat]. now rewrite append_nil_r.
Qed.

(** With at least one parameter, parameters and results form one
    comma-separated list, in order. *)
Lemma python_args_joined callable params results repo_path_param :
  params <> [] ->
  callable_str (render_header own_dir PYTHON3 callable params results
                              repo_path_param)
  = fmt callable ++ "("
    ++ join "," (map python_param_arg params
                 ++ map python_result_arg (list_of results))%list
    ++ ")".
Proof.
  intros Hparams. unfold render_header. cbn [callable_str].
  destruct results as [[|r results]|]; cbn [truthy_list list_of].
  - cbn [map]. now rewrite app_nil_r.
  - rewrite join_app; [reflexivity | | cbn; discriminate].
    destruct params; [contradiction | cbn; discriminate].
  - cbn [map]. now rewrite app_nil_r.
Qed.

Lemma python_preamble callable params results repo_path_param :
  preamble (render_header own_dir PYTHON3 callable params results
                          repo_path_param)
  = match repo_path_param with
    | Some p => "import sys,os;" ++ extend_python_path_snippet own_dir (name p)
    | None => ""
    end.
Proof. reflexivity. Qed.

End StepsFacts.

Section StepsClaims.
Import Py Steps Spec.
Local Open Scope string_scope.

Variable fs : string -> option string.
Variable own_dir : string.

(** Claim C7: whenever both a script path and an inline script body are
    supplied, the renderer raises [ValueError] and its trace is empty: no
    file has been opened. *)
Theorem both_sources_rejected script_type callable params results
    repo_path_param (p body : string) :
  p <> "" -> body <> "" ->
  task_step_script fs own_dir script_type callable params results
                   repo_path_param (Some p) (Some body)
  = ([], inl (ValueError "Either use path or inline_script but not both.")).
Proof.
  intros Hp Hbody. unfold task_step_script.
  now rewrite (truthy_Some p Hp), (truthy_Some body Hbody).
Qed.

(** Claim C6, as the code has it: with exactly one readable script source
    the rendered script is the shebang, the preamble and the script body,
    each followed by a newline of its own whether empty or not, and then the
    invocation line if and only if a callable name is supplied; for the
    shell kind, and for the embedded-interpreter kind without a
    repository-path parameter, the preamble is empty, so an empty line
    stands between the shebang and the script body. *)
Theorem all_lines_joined script_type callable params results repo_path_param
    path inline_script t body :
  script_source fs path inline_script t body ->
  let h := render_header own_dir script_type callable params results
                         repo_path_param in
  let invocation := if truthy callable then nl ++ callable_str h else "" in
  task_step_script fs own_dir script_type callable params results
                   repo_path_param path inline_script
  = (t, inr (shebang h ++ nl ++ preamble h ++ nl ++ body ++ invocation))
  /\ (script_type = BOURNE_SHELL \/ repo_path_param = None ->
      task_step_script fs own_dir script_type callable params results
                       repo_path_param path inline_script
      = (t, inr (shebang h ++ nl ++ nl ++ body ++ invocation))).
Proof.
  intros Hsrc h invocation.
  assert (Hrun : task_step_script fs own_dir script_type callable params
                   results repo_path_param path inline_script
                 = (t, inr (shebang h ++ nl ++ preamble h ++ nl ++ body
                            ++ invocation))).
  { rewrite (render_ok _ _ _ _ _ _ _ _ _ _ _ Hsrc).
    unfold rendered_lines, invocation. fold h.
    destruct (truthy callable); cbn [app]; rewrite !join_cons;
      [reflexivity | now rewrite append_nil_r]. }
  split; [exact Hrun|].
  intros Habsent. rewrite Hrun.
  assert (Hpre : preamble h = "").
  { destruct Habsent as [-> | ->]; [reflexivity|].
    destruct script_type; reflexivity. }
  now rewrite Hpre.
Qed.

(** With at least one parameter the invocation line of the
    embedded-interpreter kind is the one of the specification, and the
    second line is the search-path preamble, spelled out, exactly when a
    repository-path parameter is given. *)
Lemma python_invocation_meets_spec (callable : string) params results
    repo_path_param path inline_script t body :
  callable <> "" -> params <> [] ->
  script_source fs path inline_script t body ->
  task_step_script fs own_dir PYTHON3 (Some callable) params results
                   repo_path_param path inline_script
  = (t, inr (join nl
       ["#!/usr/bin/env python3";
        match repo_path_param with
        | Some p =>
            "import sys,os;sys.path.insert(1,os.path.abspath(os.path.join("
            ++ dq ++ "$(params." ++ name p ++ ")" ++ dq ++ ","
            ++ dq ++ basename own_dir ++ dq ++ ")))"
        | None => ""
        end;
        body;
        python_invocation callable params (list_of results)])).
Proof.
  intros Hc Hparams Hsrc.
  rewrite (render_ok fs own_dir _ _ _ _ _ _ _ _ _ Hsrc).
  unfold rendered_lines. rewrite (truthy_Some callable Hc).
  rewrite python_args_joined by exact Hparams.
  destruct repo_path_param; reflexivity.
Qed.

End StepsClaims.

Section StepsExamples.
Import Py Steps Spec Examples.
Local Open Scope string_scope.

Lemma both_sources_rejected_witness :
  "steps/build.py" <> "" /\ "echo hi" <> ""
  /\ task_step_script one_file "/ci" BOURNE_SHELL (Some "run") [foo_bar; baz]
                      None None (Some "steps/build.py") (Some "echo hi")
     = ([], inl (ValueError "Either use path or inline_script but not both.")).
Proof.
  assert (Hp : "steps/build.py" <> "") by discriminate.
  assert (Hb : "echo hi" <> "") by discriminate.
  split; [exact Hp | split; [exact Hb|]].
  exact (both_sources_rejected one_file "/ci" BOURNE_SHELL (Some "run")
           [foo_bar; baz] None None "steps/build.py" "echo hi" Hp Hb).
Defined.

Lemma all_lines_joined_witness :
  task_step_script one_file "/ci" BOURNE_SHELL None [foo_bar] None None
                   (Some "/ci/steps/promote_step.py") None
  = ([EvOpen "/ci/steps/promote_step.py"],
     inr ("#!/usr/bin/env bash" ++ nl ++ nl ++ "import promote")).
Proof.
  assert (Hsrc : script_source one_file (Some "/ci/steps/promote_step.py")
                   None [EvOpen "/ci/steps/promote_step.py"]
                   "import promote")
    by (apply source_file; [discriminate | reflexivity | reflexivity]).
  destruct (all_lines_joined one_file "/ci" BOURNE_SHELL None [foo_bar] None
              None (Some "/ci/steps/promote_step.py") None _ _ Hsrc)
    as [_ Habsent].
  exact (Habsent (or_introl eq_refl)).
Defined.

(** Claim C6, as the specification states it, fails: for the shell kind
    with an inline body and no callable, the non-empty lines are the
    shebang and the body, one newline apart, while the rendered script has
    an empty line between them. *)
Lemma nonempty_lines_refuted :
  let h := render_header "/ci" BOURNE_SHELL None [] None None in
  nonempty_lines (rendered_lines h "echo hi" None)
  = "#!/usr/bin/env bash" ++ nl ++ "echo hi"
  /\ outcome (task_step_script no_files "/ci" BOURNE_SHELL None [] None None
                               None (Some "echo hi"))
     = inr ("#!/usr/bin/env bash" ++ nl ++ nl ++ "echo hi")
  /\ outcome (task_step_script no_files "/ci" BOURNE_SHELL None [] None None
                               None (Some "echo hi"))
     <> inr (nonempty_lines (rendered_lines h "echo hi" None)).
Proof.
  split; [reflexivity | split; [reflexivity|]].
  vm_compute. intros H. discriminate H.
Qed.

(** Claim C8 fails on the code: for the embedded-interpreter kind with the
    callable run, no parameter, the result out and a repository-path
    parameter, the rendered script has the search-path preamble as its
    second line, and its invocation line is run(,out=...), with a comma
    before the only argument, where the specification has the arguments
    as one list separated by commas, run(out=...). *)
Theorem python_results_without_params :
  task_step_script no_files "/ci" PYTHON3 (Some "run") [] (Some [out])
                   (Some repo) None (Some "pass")
  = ([], inr ("#!/usr/bin/env python3" ++ nl
              ++ "import sys,os;"
              ++ "sys.path.insert(1,os.path.abspath(os.path.join("
              ++ dq ++ "$(params.repo_dir)" ++ dq ++ "," ++ dq ++ "ci" ++ dq
              ++ ")))" ++ nl
              ++ "pass" ++ nl
              ++ "run(,out='$(results.out.path)')"))
  /\ python_invocation "run" [] [out] = "run(out='$(results.out.path)')"
  /\ callable_str (render_header "/ci" PYTHON3 (Some "run") [] (Some [out])
                                 (Some repo))
     <> python_invocation "run" [] [out].
Proof.
  split; [reflexivity | split; [reflexivity|]].
  vm_compute. intros H. discriminate H.
Qed.

(** Claim C5 fails on the code: for the shell kind with a callable, the
    parameters foo-bar and baz and the result out, the invocation line of
    the rendered script holds the result placeholder only, after two
    blanks; the parameter placeholders that the specification puts before
    it are gone. *)
Theorem shell_results_drop_params :
  task_step_script no_files "/ci" BOURNE_SHELL (Some "run") [foo_bar; baz]
                   (Some [out]) None None (Some "set -e")
  = ([], inr ("#!/usr/bin/env bash" ++ nl ++ nl ++ "set -e" ++ nl
              ++ "run  " ++ dq ++ "$(results.out.path)" ++ dq))
  /\ shell_invocation "run" [foo_bar; baz] [out]
     = "run " ++ dq ++ "$(params.foo-bar)" ++ dq
       ++ " " ++ dq ++ "$(params.baz)" ++ dq
       ++ " " ++ dq ++ "$(results.out.path)" ++ dq
  /\ callable_str (render_header "/ci" BOURNE_SHELL (Some "run")
                                 [foo_bar; baz] (Some [out]) None)
     <> shell_invocation "run" [foo_bar; baz] [out].
Proof.
  split; [reflexivity | split; [reflexivity|]].
  vm_compute. intros H. discriminate H.
Qed.

End StepsExamples.

(** * The step builders and their default lists *)

Section BuilderFacts.
Import Py Steps Spec.
Local Open Scope string_scope.

Variable fs : string -> option string.
Variable own_dir : string.

Lemma append_nonempty (a b : string) : b <> "" -> a ++ b <> "".
Proof. destruct a; [now intros | discriminate]. Qed.

Lemma path_join_nonempty (a b : string) : b <> "" -> path_join a b <> "".
Proof.
  intros Hb. unfold path_join.
  destruct (String.eqb a ""); [exact Hb|].
  destruct (ends_with_slash a); apply append_nonempty; [exact Hb|].
  discriminate.
Qed.

(** When the script of the promote step can be read, the builder returns a
    step that refers to the very list it was given (or to the default list
    of the function), after appending one entry to that list. *)
Lemma promote_single_step_ok d params env_vars volume_mounts h body :
  fs (promote_script_path own_dir) = Some body ->
  exists script,
    promote_single_step fs own_dir d params env_vars volume_mounts h
    = (list_append (from_option id (default_env_vars d) env_vars)
                   (gardenlinux_path_entry params) h,
       inr (mkTaskStep "promote-step" "$(params.step_image)" script
              (from_option id (default_volume_mounts d) volume_mounts)
              (from_option id (default_env_vars d) env_vars),
            [architecture params; cicd_cfg_name params;
             gardenlinux_committish params; gardenlinux_epoch params;
             modifiers params; platform params; build_targets params;
             version params])).
Proof.
  intros Hfs. unfold promote_single_step.
  assert (Hsrc : script_source fs (Some (promote_script_path own_dir)) None
                   [EvOpen (promote_script_path own_dir)] body).
  { apply source_file; [|reflexivity|exact Hfs].
    apply path_join_nonempty. discriminate. }
  rewrite (render_ok fs own_dir _ _ _ _ _ _ _ _ _ Hsrc).
  eexists. reflexivity.
Qed.

Lemma lookup_list_append r x (h : heap) l :
  h !! r = Some l -> list_append r x h !! r = Some (l ++ [x])%list.
Proof. intros Hl. unfold list_append. now rewrite lookup_alter_eq, Hl. Qed.

(** Every promote step built without [env_vars] refers to the default list
    of the function, and that list has grown by one entry per step built. *)
Lemma promote_steps_share_default d ps : forall (h : heap) l body,
  fs (promote_script_path own_dir) = Some body ->
  h !! default_env_vars d = Some l ->
  let (h', rs) := promote_steps fs own_dir d ps h in
  h' !! default_env_vars d
  = Some (l ++ map gardenlinux_path_entry ps)%list
  /\ Forall (fun r => exists step step_params,
               r = inr (step, step_params)
               /\ ts_env step = default_env_vars d) rs.
Proof.
  induction ps as [|params ps IH]; intros h l body Hfs Hl.
  - cbn. rewrite app_nil_r. split; [exact Hl | constructor].
  - cbn [promote_steps].
    destruct (promote_single_step_ok d params None None h body Hfs)
      as [script ->].
    cbn [from_option id].
    pose proof (lookup_list_append _ (gardenlinux_path_entry params) _ _ Hl)
      as Hl'.
    specialize (IH _ _ body Hfs Hl').
    destruct (promote_steps fs own_dir d ps _) as [h'' rs].
    destruct IH as [Hh'' Hrs]. split.
    + rewrite Hh''. now rewrite <- app_assoc.
    + constructor; [|exact Hrs]. eexists _, _. split; reflexivity.
Qed.

(** Claim C10: two calls of [promote_single_step] that omit [env_vars] both
    return a step whose [env] is the one default list of the function; the
    first call leaves its GARDENLINUX_PATH entry in that list, the second
    appends its own, so that the list the second step refers to, which is
    also the list of the first step, holds the entry twice. *)
Theorem default_env_vars_shared d params1 params2 (h : heap) body :
  fs (promote_script_path own_dir) = Some body ->
  h !! default_env_vars d = Some [] ->
  exists step1 ps1 h1 step2 ps2 h2,
    promote_single_step fs own_dir d params1 None None h
    = (h1, inr (step1, ps1))
    /\ promote_single_step fs own_dir d params2 None None h1
       = (h2, inr (step2, ps2))
    /\ ts_env step1 = default_env_vars d
    /\ ts_env step2 = ts_env step1
    /\ h1 !! ts_env step1 = Some [gardenlinux_path_entry params1]
    /\ h2 !! ts_env step2
       = Some [gardenlinux_path_entry params1; gardenlinux_path_entry params2].
Proof.
  intros Hfs Hempty.
  destruct (promote_single_step_ok d params1 None None h body Hfs)
    as [script1 Hrun1].
  cbn [from_option id] in Hrun1.
  pose proof (lookup_list_append _ (gardenlinux_path_entry params1) _ _ Hempty)
    as Hh1.
  destruct (promote_single_step_ok d params2 None None
              (list_append (default_env_vars d)
                           (gardenlinux_path_entry params1) h) body Hfs)
    as [script2 Hrun2].
  cbn [from_option id] in Hrun2.
  pose proof (lookup_list_append _ (gardenlinux_path_entry params2) _ _ Hh1)
    as Hh2.
  eexists _, _, _, _, _, _.
  split; [exact Hrun1 | split; [exact Hrun2|]].
  cbn [ts_env]. repeat split; assumption.
Qed.

End BuilderFacts.

Section BuilderExamples.
Import Py Steps Spec Examples.
Local Open Scope string_scope.

Lemma default_env_vars_shared_witness :
  exists step1 ps1 h1 step2 ps2 h2,
    promote_single_step one_file "/ci" step_defaults all_params None None
                        heap_after_import
    = (h1, inr (step1, ps1))
    /\ promote_single_step one_file "/ci" step_defaults all_params None None h1
       = (h2, inr (step2, ps2))
    /\ ts_env step2 = ts_env step1
    /\ h2 !! ts_env step2
       = Some [[("name", "GARDENLINUX_PATH");
                ("value", "/workspace/gardenlinux_git")];
               [("name", "GARDENLINUX_PATH");
                ("value", "/workspace/gardenlinux_git")]].
Proof.
  assert (Hfs : one_file (promote_script_path "/ci") = Some "import promote")
    by reflexivity.
  assert (Hempty : heap_after_import !! default_env_vars step_defaults
                   = Some [])
    by (unfold heap_after_import; apply lookup_insert_eq).
  destruct (default_env_vars_shared one_file "/ci" step_defaults all_params
              all_params heap_after_import "import promote" Hfs Hempty)
    as (step1 & ps1 & h1 & step2 & ps2 & h2 & H1 & H2 & _ & Halias & _ & Hh2).
  exists step1, ps1, h1, step2, ps2, h2.
  split; [exact H1 | split; [exact H2 | split; [exact Halias | exact Hh2]]].
Defined.

End BuilderExamples.

(** * The credential manager *)

Section CredentialFacts.
Import Py CredentialManager.
Local Open Scope string_scope.

Lemma available_iff (env : environ) :
  cc_config_server_available env = true
  <-> exists endpoint cfg_name,
        env !! "SECRETS_SERVER_ENDPOINT" = Some endpoint /\ endpoint <> ""
        /\ env !! "SECRETS_SERVER_CONCOURSE_CFG_NAME" = Some cfg_name
        /\ cfg_name <> "".
Proof.
  unfold cc_config_server_available, getenv. rewrite andb_true_iff. split.
  - intros [H1 H2].
    apply truthy_true in H1 as (a & Ha & Hane).
    apply truthy_true in H2 as (b & Hb & Hbne). eauto 10.
  - intros (a & b & Ha & Hane & Hb & Hbne). rewrite Ha, Hb.
    now rewrite !truthy_Some.
Qed.

(** Given by its value, as the command line option delivers it, the policy
    decides as the enumeration says. *)
Lemma policy_by_value (env : environ) :
  use_cc_config_server (snd (__init__ env (Str "always"))) = true
  /\ use_cc_config_server (snd (__init__ env (Str "never"))) = false
  /\ use_cc_config_server (snd (__init__ env (Str "probe")))
     = cc_config_server_available env.
Proof.
  unfold __init__. cbn [equals value]. repeat split.
  change (String.eqb "always" "probe") with false.
  change (String.eqb "probe" "probe") with true. cbn [orb andb].
  now destruct (cc_config_server_available env).
Qed.

(** Once [_instance] is set, [get_instance] returns it, constructs nothing
    and logs nothing, whatever policy and environment it is given. *)
Lemma get_instance_fixed env p (st : class_state) r :
  _instance st = Some r -> get_instance env p st = (st, ([], r)).
Proof. intros Hr. unfold get_instance. now rewrite Hr. Qed.

Lemma run_fixed calls : forall (st : class_state) r,
  _instance st = Some r ->
  run calls st = (st, repeat r (length calls)).
Proof.
  induction calls as [|[env p] calls IH]; intros st r Hr; [reflexivity|].
  cbn [run]. rewrite (get_instance_fixed env p st r Hr).
  now rewrite (IH st r Hr).
Qed.

(** The first call on a fresh class constructs the object at position 0;
    it is what every call of the process returns. *)
Lemma run_from_initial env0 p0 (calls : list (environ * option policy_arg)) :
  run ((env0, p0) :: calls) initial
  = (mkClass [snd (__init__ env0 (from_option id (Member PROBE) p0))]
             (Some 0%nat),
     repeat 0%nat (S (length calls))).
Proof.
  cbn [run]. unfold get_instance. cbn [initial _instance objects].
  destruct (__init__ env0 (from_option id (Member PROBE) p0)) as [log obj].
  cbn [length app snd].
  now rewrite (run_fixed calls (mkClass [obj] (Some 0%nat)) 0%nat eq_refl).
Qed.

(** Claim C2 fails on the code: given a member of [CCconfigPrecedence], as
    the signature of the constructor declares, the manager obtains
    credentials from the environment, also for [ALWAYS], and also for
    [PROBE] when both environment variables are set; the default policy of
    [get_instance] is such a member. *)
Theorem member_policy_selects_local (env : environ) (m : CCconfigPrecedence) :
  use_cc_config_server (snd (__init__ env (Member m))) = false
  /\ mode_of (fst (get_instance env None initial)) 0 = Some false.
Proof. split; reflexivity. Qed.

(** Claim C9: in every sequence of calls of [get_instance], the first call
    constructs the one instance, with the policy it was given; every call,
    the first and all later ones, whatever policy they pass, returns that
    same instance, whose mode stays the one the first call fixed; and no
    second instance is constructed. *)
Theorem singleton_fixed_by_first_call env0 p0
    (calls : list (environ * option policy_arg)) :
  let st := fst (run ((env0, p0) :: calls) initial) in
  let returned := snd (run ((env0, p0) :: calls) initial) in
  objects st = [snd (__init__ env0 (from_option id (Member PROBE) p0))]
  /\ _instance st = Some 0%nat
  /\ returned = repeat 0%nat (S (length calls))
  /\ Forall (fun r => mode_of st r
                      = Some (use_cc_config_server
                                (snd (__init__ env0
                                        (from_option id (Member PROBE) p0)))))
            returned.
Proof.
  intros st returned. subst st returned. rewrite run_from_initial.
  cbn [fst snd objects _instance].
  split; [reflexivity | split; [reflexivity | split; [reflexivity|]]].
  apply List.Forall_forall. intros r Hr.
  apply repeat_spec in Hr. subst r. reflexivity.
Qed.

End CredentialFacts.

(** * The promotion orchestrator *)

Section PromoteFacts.
Import Py Promote Spec.
Local Open Scope string_scope.

Variable run_publish :
  publish_routine -> OnlineReleaseManifest -> CicdCfg ->
  exn + OnlineReleaseManifest.
Variable run_cleanup :
  cleanup_routine -> OnlineReleaseManifest -> CicdCfg -> exn + unit.

(** The dispatch registers a cleanup routine for exactly the platforms the
    specification lists. *)
Lemma select_cleanup release cicd_cfg f c :
  select release cicd_cfg = Some (f, c) ->
  (c <> None <-> In (platform release) with_cleanup)
  /\ (c = None <-> In (platform release) without_cleanup).
Proof.
  unfold select, with_cleanup, without_cleanup. intros Hsel.
  repeat match type of Hsel with
         | context [String.eqb ?a ?b] =>
             destruct (String.eqb_spec a b) as [Heq|?]; cbv iota in Hsel
         end;
    try discriminate Hsel;
    injection Hsel as <- <-; rewrite Heq; cbn [In];
    (split; split; intros H;
     first [ discriminate H
           | discriminate
           | reflexivity
           | exfalso; apply H; reflexivity
           | auto 10; fail
           | exfalso;
             repeat (destruct H as [H|H]; try discriminate H);
             contradiction ]).
Qed.

(** A publish routine that returns is all that happens. *)
Lemma publish_image_returns release cicd_cfg f c published :
  select release cicd_cfg = Some (f, c) ->
  run_publish f release cicd_cfg = inr published ->
  publish_image run_publish run_cleanup release cicd_cfg
  = ([LogInfo "running release for" (platform release); CallPublish f],
     inr published).
Proof.
  intros Hsel Hpub. unfold publish_image, call_publish. rewrite Hsel.
  cbn. now rewrite Hpub.
Qed.

(** When the cleanup routine itself raises, its exception is the one that
    leaves [publish_image]. *)
Lemma cleanup_failure_propagates release cicd_cfg f cleanup e e' :
  select release cicd_cfg = Some (f, Some cleanup) ->
  run_publish f release cicd_cfg = inl e ->
  run_cleanup cleanup release cicd_cfg = inl e' ->
  publish_image run_publish run_cleanup release cicd_cfg
  = ([LogInfo "running release for" (platform release); CallPublish f;
      PrintExc e; CallCleanup cleanup],
     inl e').
Proof.
  intros Hsel Hpub Hclean. unfold publish_image, call_publish, call_cleanup.
  rewrite Hsel. cbn. rewrite Hpub. cbn. now rewrite Hclean.
Qed.

(** Claim C1, as the code has it: when the selected publish routine raises,
    [publish_image] calls it once and does not retry, prints the trace of
    the exception, and then, for ali, aws and openstack, calls the cleanup
    routine of the platform once and, provided that routine returns,
    raises the exception of the publish routine again; for gcp, azure and
    oci it logs a warning instead of cleaning up and raises that exception
    again. *)
Theorem failed_publish_cleans_up release cicd_cfg f c e :
  select release cicd_cfg = Some (f, c) ->
  run_publish f release cicd_cfg = inl e ->
  (forall cleanup, c = Some cleanup ->
                   run_cleanup cleanup release cicd_cfg = inr tt) ->
  publish_image run_publish run_cleanup release cicd_cfg
  = ([LogInfo "running release for" (platform release);
      CallPublish f;
      PrintExc e;
      match c with
      | Some cleanup => CallCleanup cleanup
      | None => LogWarning "do not know how to cleanup" (platform release)
      end],
     inl e)
  /\ (c <> None <-> In (platform release) with_cleanup)
  /\ (c = None <-> In (platform release) without_cleanup)
  /\ publish_calls
       (trace (publish_image run_publish run_cleanup release cicd_cfg)) = 1%nat
  /\ cleanup_calls
       (trace (publish_image run_publish run_cleanup release cicd_cfg))
     = match c with Some _ => 1%nat | None => 0%nat end.
Proof.
  intros Hsel Hpub Hclean.
  assert (Hrun : publish_image run_publish run_cleanup release cicd_cfg
                 = ([LogInfo "running release for" (platform release);
                     CallPublish f; PrintExc e;
                     match c with
                     | Some cleanup => CallCleanup cleanup
                     | None => LogWarning "do not know how to cleanup"
                                          (platform release)
                     end],
                    inl e)).
  { unfold publish_image, call_publish, call_cleanup. rewrite Hsel.
    cbn. rewrite Hpub. cbn.
    destruct c as [cleanup|]; cbn; [|reflexivity].
    now rewrite (Hclean cleanup eq_refl). }
  split; [exact Hrun|].
  destruct (select_cleanup release cicd_cfg f c Hsel) as [Hwith Hwithout].
  split; [exact Hwith | split; [exact Hwithout|]].
  rewrite Hrun. destruct c; split; reflexivity.
Qed.

End PromoteFacts.

Section PromoteExamples.
Import Py Promote Spec Examples.
Local Open Scope string_scope.

Lemma failed_publish_cleans_up_witness :
  publish_image publish_fails cleanup_works aws_release plain_cfg
  = ([LogInfo "running release for" "aws"; CallPublish _publish_aws_image;
      PrintExc (ExternalError "publish failed"); CallCleanup _cleanup_aws],
     inl (ExternalError "publish failed")).
Proof.
  assert (Hsel : select aws_release plain_cfg
                 = Some (_publish_aws_image, Some _cleanup_aws))
    by reflexivity.
  assert (Hpub : publish_fails _publish_aws_image aws_release plain_cfg
                 = inl (ExternalError "publish failed"))
    by reflexivity.
  assert (Hclean : forall cleanup, Some _cleanup_aws = Some cleanup ->
                     cleanup_works cleanup aws_release plain_cfg = inr tt)
    by (intros; reflexivity).
  exact (proj1 (failed_publish_cleans_up publish_fails cleanup_works
                  aws_release plain_cfg _publish_aws_image (Some _cleanup_aws)
                  (ExternalError "publish failed") Hsel Hpub Hclean)).
Defined.

(** Claim C1, as the specification states it, fails: for an aws release
    whose publish routine raises and whose cleanup routine raises as well,
    the exception that leaves [publish_image] is the one of the cleanup
    routine, not the original one. *)
Lemma original_exception_lost :
  publish_fails _publish_aws_image aws_release plain_cfg
  = inl (ExternalError "publish failed")
  /\ publish_image publish_fails cleanup_fails aws_release plain_cfg
     = ([LogInfo "running release for" "aws"; CallPublish _publish_aws_image;
         PrintExc (ExternalError "publish failed");
         CallCleanup _cleanup_aws],
        inl (ExternalError "cleanup failed"))
  /\ outcome (publish_image publish_fails cleanup_fails aws_release plain_cfg)
     <> inl (ExternalError "publish failed").
Proof.
  split; [reflexivity | split; [reflexivity|]].
  cbn. intros H. discriminate H.
Qed.

End PromoteExamples.

(** * Printing and reading integers *)

Section Decimal.
Import Py Cli.
Local Open Scope string_scope.













End Decimal.

(** * The pattern of a version *)

Section PatternFacts.
Import Py Cli Spec.
Local Open Scope string_scope.


End PatternFacts.

(** * The command line *)

Section CliFacts.
Import Py Cli Spec.
Local Open Scope string_scope.

Variable workingtree_version : string.
Variable download_file : string -> string -> string -> option exn.
Variable path_exists : string -> bool.
Variable cfg : cicd_cfg.
Variable find_release : string -> option OnlineReleaseManifest.
Variable other_symbols : string -> option (M event retval).

Lemma named_eqb (n : string) :
  named n -> String.eqb n "log" || String.eqb n "logs" = false.
Proof.
  intros [H1 H2].
  destruct (String.eqb_spec n "log"); [contradiction|].
  destruct (String.eqb_spec n "logs"); [contradiction | reflexivity].
Qed.

Lemma more_than_one {A} (x : A) (l : list A) :
  (1 <? Z.of_nat (length (x :: l)))%Z
  = match l with [] => false | _ :: _ => true end.
Proof.
  destruct l as [|y l]; [reflexivity|].
  apply Z.ltb_lt. cbn [length]. lia.
Qed.

(** No entry of the requested name: an error is printed, the result code
    is 1, and the object store has not been asked for anything. *)
Lemma download_not_found c n outfile manifest :
  named n -> matching n (paths manifest) = [] ->
  _download_release_artifact download_file c n outfile manifest
  = ([Print ("Error: No object in release manifest with name " ++ n)],
     inr 1).
Proof.
  intros Hn Hnone. unfold _download_release_artifact.
  now rewrite (named_eqb n Hn), Hnone.
Qed.

(** At least one entry of the requested name: the first one in list order
    is fetched, after a warning when there are more. *)
Lemma download_first_match c n outfile manifest first more :
  named n -> matching n (paths manifest) = first :: more ->
  download_file (s3_bucket_name first) (s3_key first) outfile = None ->
  _download_release_artifact download_file c n outfile manifest
  = (match more with
      | [] => []
      | _ :: _ =>
          [Print ("Warning.: Found more than one file with name " ++ n
                  ++ ", using first one")]
      end
     ++ [Print ("Downloading object with S3-key: " ++ s3_key first
                ++ " from bucket " ++ s3_bucket_name first ++ ", to "
                ++ outfile);
         S3Download (aws_cfg_name c) (s3_bucket_name first) (s3_key first)
                    outfile],
     inr 0)%list.
Proof.
  intros Hn Hsome Hdl.
  unfold _download_release_artifact, _download_obj_to_file.
  rewrite (named_eqb n Hn), Hsome, more_than_one.
  destruct more as [|second more]; cbn; rewrite Hdl; reflexivity.
Qed.

(** The first matching entry is the first entry of the list with that
    name: everything before it has another name. *)
Lemma matching_first n (l : list S3_ReleaseFile) first more :
  matching n l = first :: more ->
  exists before after,
    l = (before ++ first :: after)%list
    /\ name first = n
    /\ Forall (fun entry => name entry <> n) before.
Proof.
  induction l as [|x l IH]; [discriminate|].
  unfold matching. cbn [List.filter].
  destruct (String.eqb_spec (name x) n) as [Hx|Hx].
  - intros [= <- _]. exists [], l. repeat split; [exact Hx | constructor].
  - intros Hl. destruct (IH Hl) as (before & after & -> & Hname & Hbefore).
    exists (x :: before), after. repeat split; [exact Hname|].
    constructor; assumption.
Qed.

(** [main] drops what the handler returns: whenever the handler returns,
    with whatever result code, the process ends with status 0. *)
Lemma main_discards_result argv0 parsed func t (code : retval) :
  module_symbols workingtree_version download_file path_exists cfg
                 find_release other_symbols parsed
                 (replace "-" "_" (basename argv0)) = Some func ->
  func = (t, inr code) ->
  main workingtree_version download_file path_exists cfg find_release
       other_symbols argv0 parsed = (t, inr tt)
  /\ exit_status (main workingtree_version download_file path_exists cfg
                       find_release other_symbols argv0 parsed) = 0.
Proof.
  intros Hsym Hfunc. unfold main. rewrite Hsym, Hfunc. cbn.
  rewrite app_nil_r. split; reflexivity.
Qed.


(** Where it is not, the call of [int] raises. *)
Lemma fix_version_raises parsed_version parsed_epoch :
  parsed_version <> workingtree_version ->
  parse_int (first_segment parsed_version) = None ->
  outcome (_fix_version workingtree_version parsed_version parsed_epoch)
  = inl (ValueError "invalid literal for int() with base 10").
Proof.
  intros Hne Hint. unfold _fix_version, int, when.
  destruct (String.eqb_spec parsed_version workingtree_version);
    [contradiction|].
  cbn [negb]. destruct (pattern_match parsed_version); cbn;
    rewrite Hint; reflexivity.
Qed.

End CliFacts.

Section CliExamples.
Import Py Cli Spec Examples.
Local Open Scope string_scope.

(** A request for a picks the first of the two entries named a, after the
    warning. *)
Example download_a :
  _download_release_artifact download_works build_cfg "a" "a" manifest_aab
  = ([Print "Warning.: Found more than one file with name a, using first one";
      Print "Downloading object with S3-key: objects/a1 from bucket bucket-1, to a";
      S3Download "default" "bucket-1" "objects/a1" "a"],
     inr 0).
Proof. reflexivity. Qed.

(** Claim C3 fails on the code: for a manifest with the entries a, a and b
    and a request for c, the download prints the error, asks the object
    store for nothing and returns the result code 1, which the command
    returns in turn; [main] drops it, and the process ends with status 0
    where the specification says 1. *)
Theorem not_found_exits_zero :
  let parsed := mkParsed "318.9" 318 (Some "c") None in
  let command :=
    retrieve_single_manifest "today" download_works nothing_exists build_cfg
                             release_found parsed in
  let process :=
    main "today" download_works nothing_exists build_cfg release_found
         no_other_symbols "bin/retrieve-single-manifest" parsed in
  command
  = ([PrintUsedArgs; Print "Error: No object in release manifest with name c"],
     inr (Some 1))
  /\ List.filter is_download (trace process) = []
  /\ outcome process = inr tt
  /\ exit_status process = 0.
Proof.
  cbv zeta. split; [reflexivity|]. split; [reflexivity|].
  split; reflexivity.
Qed.

(** Claim C4 fails on the code: with the working-tree default today and
    the epoch 318, the user-supplied version abc differs from the default
    and is not a dot-and-digit string; the warning is printed, and then
    the routine fails with [ValueError], raised by [int] on the leading
    segment abc, where the specification has it return abc. *)
Theorem given_version_not_returned :
  _fix_version "today" "abc" 318
  = ([Print ">>> WARNING: abc is not a semver version! <<<"],
     inl (ValueError "invalid literal for int() with base 10")).
Proof. reflexivity. Qed.

(** The default, when it is no dot-and-digit string, becomes the epoch
    followed by .0, without any warning. *)
Example default_version_corrected :
  _fix_version "today" "today" 318 = ([], inr "318.0").
Proof. reflexivity. Qed.

End CliExamples.

(** * More on the step script renderer *)

Section RendererMore.
Import Py Steps Spec.
Local Open Scope string_scope.

Variable fs : string -> option string.
Variable own_dir : string.

(** The renderer returns a script if and only if exactly one script source
    is supplied and, for a path, the file can be read; in every other case
    it raises. *)
Theorem renders_iff_one_source script_type callable params results
    repo_path_param path inline_script :
  (exists script,
     outcome (task_step_script fs own_dir script_type callable params results
                               repo_path_param path inline_script)
     = inr script)
  <-> exists t body, script_source fs path inline_script t body.
Proof.
  split.
  - intros [script Hrun]. unfold task_step_script in Hrun.
    destruct (truthy path) eqn:Hp, (truthy inline_script) eqn:Hi;
      cbn [andb] in Hrun; try discriminate Hrun.
    + apply truthy_true in Hp as (p & -> & Hp).
      unfold read_file in Hrun. cbn [str_of] in Hrun.
      destruct (fs p) as [body|] eqn:Hfs; [|discriminate Hrun].
      exists [EvOpen p], body. now apply source_file.
    + apply truthy_true in Hi as (body & -> & Hbody).
      exists [], body. now apply source_inline.
  - intros (t & body & Hsrc).
    rewrite (render_ok fs own_dir _ _ _ _ _ _ _ _ _ Hsrc). eauto.
Qed.

(** A path whose file cannot be read: the file is asked for once and
    [OSError] is raised. *)
Theorem unreadable_file_raises script_type callable params results
    repo_path_param (p : string) inline_script :
  p <> "" -> truthy inline_script = false -> fs p = None ->
  task_step_script fs own_dir script_type callable params results
                   repo_path_param (Some p) inline_script
  = ([EvOpen p], inl (OSError p)).
Proof.
  intros Hp Hi Hfs. unfold task_step_script, read_file.
  rewrite (truthy_Some p Hp), Hi. cbn. now rewrite Hfs.
Qed.

(** Without a callable name the parameters and results do not show in what
    the renderer does: the call behaves as with none of them. *)
Theorem no_callable_ignores_arguments script_type callable params results
    repo_path_param path inline_script :
  truthy callable = false ->
  task_step_script fs own_dir script_type callable params results
                   repo_path_param path inline_script
  = task_step_script fs own_dir script_type callable [] None
                     repo_path_param path inline_script.
Proof.
  intros Hc. unfold task_step_script. rewrite Hc.
  destruct (truthy path && truthy inline_script); [reflexivity|].
  destruct (truthy path); [|destruct (truthy inline_script)].
  - unfold read_file. destruct (fs (str_of path)); [|reflexivity].
    destruct script_type; reflexivity.
  - destruct inline_script; destruct script_type; reflexivity.
  - reflexivity.
Qed.

(** Embedded-interpreter kind with at least one parameter: the arguments of
    the invocation are one comma-separated list, the parameters first and
    the results after them, in list order. *)
Theorem python_arguments_one_list (callable : string) params results
    repo_path_param path inline_script t body :
  callable <> "" -> params <> [] ->
  script_source fs path inline_script t body ->
  task_step_script fs own_dir PYTHON3 (Some callable) params results
                   repo_path_param path inline_script
  = (t, inr (join nl
       ["#!/usr/bin/env python3";
        match repo_path_param with
        | Some p =>
            "import sys,os;" ++ extend_python_path_snippet own_dir (name p)
        | None => ""
        end;
        body;
        callable ++ "("
        ++ join "," (map python_param_arg params
                     ++ map python_result_arg (list_of results))%list
        ++ ")"])).
Proof.
  intros Hc Hparams Hsrc.
  rewrite (render_ok fs own_dir _ _ _ _ _ _ _ _ _ Hsrc).
  unfold rendered_lines. rewrite (truthy_Some callable Hc).
  rewrite python_args_joined by exact Hparams. reflexivity.
Qed.

(** Embedded-interpreter kind without parameters but with results: the
    argument list starts with a comma. *)
Theorem python_results_only_leading_comma (callable : string) r results
    repo_path_param path inline_script t body :
  callable <> "" ->
  script_source fs path inline_script t body ->
  exists preamble_line,
    task_step_script fs own_dir PYTHON3 (Some callable) [] (Some (r :: results))
                     repo_path_param path inline_script
    = (t, inr (join nl
         ["#!/usr/bin/env python3"; preamble_line; body;
          callable ++ "(,"
          ++ join "," (map python_result_arg (r :: results)) ++ ")"])).
Proof.
  intros Hc Hsrc. eexists.
  rewrite (render_ok fs own_dir _ _ _ _ _ _ _ _ _ Hsrc).
  unfold rendered_lines. rewrite (truthy_Some callable Hc). reflexivity.
Qed.

Lemma replace_absent (old new : ascii) (s : string) :
  occurs old s = false -> replace old new s = s.
Proof.
  induction s as [|c s IH]; [reflexivity|].
  cbn [occurs replace]. intros H. apply orb_false_elim in H as [Hc Hs].
  now rewrite Hc, (IH Hs).
Qed.

(** The argument name of a parameter never has a hyphen, is as long as the
    name of the parameter, and is that name when it has no hyphen; the
    placeholder keeps the name as it is. *)
Theorem argument_name_without_hyphen (param : NamedParam) :
  exists keyword,
    python_param_arg param = keyword ++ "='$(params." ++ name param ++ ")'"
    /\ occurs "-" keyword = false
    /\ String.length keyword = String.length (name param)
    /\ (occurs "-" (name param) = false -> keyword = name param).
Proof.
  exists (replace "-" "_" (name param)).
  split; [reflexivity|]. split; [|split].
  - apply replace_removes. discriminate.
  - apply replace_length.
  - apply replace_absent.
Qed.

(** Shell kind without results: the invocation line is the callable, a
    blank, and the parameters as quoted placeholders separated by blanks;
    the second line is empty. *)
Theorem shell_invocation_without_results (callable : string) params results
    repo_path_param path inline_script t body :
  callable <> "" -> truthy_list results = false ->
  script_source fs path inline_script t body ->
  task_step_script fs own_dir BOURNE_SHELL (Some callable) params results
                   repo_path_param path inline_script
  = (t, inr (join nl
       ["#!/usr/bin/env bash"; ""; body;
        callable ++ " " ++ join " " (map shell_param_arg params)])).
Proof.
  intros Hc Hres Hsrc.
  rewrite (render_ok fs own_dir _ _ _ _ _ _ _ _ _ Hsrc).
  unfold rendered_lines, render_header. rewrite (truthy_Some callable Hc), Hres.
  reflexivity.
Qed.

End RendererMore.

Section RendererMoreExamples.
Import Py Steps Spec Examples.
Local Open Scope string_scope.

Lemma unreadable_file_raises_witness :
  task_step_script no_files "/ci" PYTHON3 (Some "run") [foo_bar] None None
                   (Some "steps/missing.py") None
  = ([EvOpen "steps/missing.py"], inl (OSError "steps/missing.py")).
Proof.
  assert (Hp : "steps/missing.py" <> "") by discriminate.
  exact (unreadable_file_raises no_files "/ci" PYTHON3 (Some "run") [foo_bar]
           None None "steps/missing.py" None Hp eq_refl eq_refl).
Defined.

Lemma no_callable_ignores_arguments_witness :
  task_step_script no_files "/ci" PYTHON3 None [foo_bar; baz] (Some [out])
                   None None (Some "pass")
  = task_step_script no_files "/ci" PYTHON3 None [] None None None
                     (Some "pass").
Proof.
  exact (no_callable_ignores_arguments no_files "/ci" PYTHON3 None
           [foo_bar; baz] (Some [out]) None None (Some "pass") eq_refl).
Defined.

Lemma python_arguments_one_list_witness :
  task_step_script no_files "/ci" PYTHON3 (Some "run") [foo_bar; baz]
                   (Some [out]) None None (Some "pass")
  = ([], inr (join nl
       ["#!/usr/bin/env python3"; ""; "pass";
        "run(foo_bar='$(params.foo-bar)',baz='$(params.baz)'"
        ++ ",out='$(results.out.path)')"])).
Proof.
  assert (Hc : "run" <> "") by discriminate.
  assert (Hparams : [foo_bar; baz] <> []) by discriminate.
  assert (Hsrc : script_source no_files None (Some "pass") [] "pass")
    by (apply source_inline; [reflexivity | discriminate]).
  exact (python_arguments_one_list no_files "/ci" "run" [foo_bar; baz]
           (Some [out]) None None (Some "pass") [] "pass" Hc Hparams Hsrc).
Defined.

Lemma python_results_only_leading_comma_witness :
  exists preamble_line,
    task_step_script no_files "/ci" PYTHON3 (Some "run") [] (Some [out])
                     None None (Some "pass")
    = ([], inr (join nl
         ["#!/usr/bin/env python3"; preamble_line; "pass";
          "run(,out='$(results.out.path)')"])).
Proof.
  assert (Hc : "run" <> "") by discriminate.
  assert (Hsrc : script_source no_files None (Some "pass") [] "pass")
    by (apply source_inline; [reflexivity | discriminate]).
  exact (python_results_only_leading_comma no_files "/ci" "run" out [] None
           None (Some "pass") [] "pass" Hc Hsrc).
Defined.

Lemma shell_invocation_without_results_witness :
  task_step_script no_files "/ci" BOURNE_SHELL (Some "run") [foo_bar; baz]
                   None None None (Some "set -e")
  = ([], inr (join nl
       ["#!/usr/bin/env bash"; ""; "set -e";
        "run " ++ dq ++ "$(params.foo-bar)" ++ dq ++ " "
        ++ dq ++ "$(params.baz)" ++ dq])).
Proof.
  assert (Hc : "run" <> "") by discriminate.
  assert (Hsrc : script_source no_files None (Some "set -e") [] "set -e")
    by (apply source_inline; [reflexivity | discriminate]).
  exact (shell_invocation_without_results no_files "/ci" "run" [foo_bar; baz]
           None None None (Some "set -e") [] "set -e" Hc eq_refl Hsrc).
Defined.

End RendererMoreExamples.

(** * More on the step builders *)

Section BuildersMore.
Import Py Steps Spec.
Local Open Scope string_scope.

Variable fs : string -> option string.
Variable own_dir : string.

(** [promote_single_step] changes one list object only, the one it appends
    to: every other list of the store, the volume mounts among them, is as
    it was, whether the call returns or raises. *)
Theorem promote_single_step_frame d params env_vars volume_mounts
    (h : heap) (r : loc) :
  r <> from_option id (default_env_vars d) env_vars ->
  fst (promote_single_step fs own_dir d params env_vars volume_mounts h) !! r
  = h !! r.
Proof.
  intros Hr. unfold promote_single_step.
  destruct (outcome _); cbn [fst]; unfold list_append;
    now rewrite lookup_alter_ne.
Qed.

(** When the script of the promote step cannot be read the call raises
    [OSError], and the GARDENLINUX_PATH entry it appended before is left in
    the list. *)
Theorem promote_single_step_appends_before_failing d params env_vars
    volume_mounts (h : heap) l :
  fs (promote_script_path own_dir) = None ->
  h !! from_option id (default_env_vars d) env_vars = Some l ->
  exists h',
    promote_single_step fs own_dir d params env_vars volume_mounts h
    = (h', inl (OSError (promote_script_path own_dir)))
    /\ h' !! from_option id (default_env_vars d) env_vars
       = Some (l ++ [gardenlinux_path_entry params])%list.
Proof.
  intros Hfs Hl. unfold promote_single_step.
  assert (Hp : promote_script_path own_dir <> "")
    by (apply path_join_nonempty; discriminate).
  unfold task_step_script, read_file.
  rewrite (truthy_Some _ Hp). cbn. rewrite Hfs. cbn.
  eexists. split; [reflexivity|].
  now apply lookup_list_append.
Qed.

End BuildersMore.

Section BuildersShared.
Import Py Steps Spec.
Local Open Scope string_scope.

Variable fs : string -> option string.
Variable own_dir : string.

(** A list handed to [clone_step] and then to [promote_single_step] is one
    object: both steps refer to it, and the clone step, built first, shows
    the GARDENLINUX_PATH entry that the later call appended. *)
Theorem shared_list_changes_earlier_step d_clone d_promote params more
    volume_mounts (h : heap) (r : loc) l body_clone body_promote :
  fs (path_join (steps_dir own_dir) "clone_repo_step.py") = Some body_clone ->
  fs (promote_script_path own_dir) = Some body_promote ->
  h !! r = Some l ->
  exists clone clone_params promote promote_params h',
    clone_step fs own_dir d_clone params more (Some r) volume_mounts
    = inr (clone, clone_params)
    /\ promote_single_step fs own_dir d_promote params (Some r)
                           volume_mounts h
       = (h', inr (promote, promote_params))
    /\ ts_env clone = r /\ ts_env promote = r
    /\ h !! ts_env clone = Some l
    /\ h' !! ts_env clone
       = Some (l ++ [gardenlinux_path_entry params])%list.
Proof.
  intros Hclone Hpromote Hl.
  assert (Hsrc : script_source fs
            (Some (path_join (steps_dir own_dir) "clone_repo_step.py")) None
            [EvOpen (path_join (steps_dir own_dir) "clone_repo_step.py")]
            body_clone).
  { apply source_file; [|reflexivity|exact Hclone].
    apply path_join_nonempty. discriminate. }
  destruct (promote_single_step_ok fs own_dir d_promote params (Some r)
              volume_mounts h body_promote Hpromote) as [script Hrun].
  cbn [from_option id] in Hrun.
  unfold clone_step.
  rewrite (render_ok fs own_dir _ _ _ _ _ _ _ _ _ Hsrc). cbn [outcome snd].
  eexists _, _, _, _, _.
  split; [reflexivity | split; [exact Hrun|]].
  cbn [ts_env from_option id].
  split; [reflexivity | split; [reflexivity | split; [exact Hl|]]].
  now apply lookup_list_append.
Qed.

(** The finalise-promotion step: its script calls [promote_step] with the
    seven parameters and then the result that holds the manifest set key,
    as one comma-separated list after the search-path preamble; the result
    is not among the parameters it returns, and the lists it is given are
    the lists of the step. *)
Theorem promote_step_script d params more results env_vars volume_mounts
    body :
  fs (promote_script_path own_dir) = Some body ->
  let step_params :=
    [cicd_cfg_name params; gardenlinux_committish params;
     flavour_set_name more; gardenlinux_epoch params; promote_target more;
     build_targets params; version params] in
  exists step,
    promote_step fs own_dir d params more results env_vars volume_mounts
    = inr (step, step_params)
    /\ ts_script step
       = join nl
           ["#!/usr/bin/env python3";
            "import sys,os;"
            ++ extend_python_path_snippet own_dir (name (repo_dir params));
            body;
            "promote_step("
            ++ join "," (map python_param_arg step_params
                         ++ [python_result_arg
                               (manifest_set_key_result results)])%list
            ++ ")"]
    /\ ts_env step = from_option id (default_env_vars d) env_vars
    /\ ts_volumeMounts step
       = from_option id (default_volume_mounts d) volume_mounts.
Proof.
  intros Hfs step_params.
  assert (Hsrc : script_source fs (Some (promote_script_path own_dir)) None
                   [EvOpen (promote_script_path own_dir)] body).
  { apply source_file; [|reflexivity|exact Hfs].
    apply path_join_nonempty. discriminate. }
  unfold promote_step. fold (promote_script_path own_dir). fold step_params.
  rewrite (render_ok fs own_dir _ _ _ _ _ _ _ _ _ Hsrc). cbn [outcome snd].
  eexists. split; [reflexivity|]. cbn [ts_script ts_env ts_volumeMounts].
  split; [|split; reflexivity].
  unfold rendered_lines. cbn [truthy String.eqb negb app].
  rewrite python_args_joined by discriminate. reflexivity.
Qed.

End BuildersShared.

Section BuildersMoreExamples.
Import Py Steps Spec Examples.
Local Open Scope string_scope.

Lemma promote_single_step_frame_witness :
  fst (promote_single_step one_file "/ci" step_defaults all_params None None
                           heap_after_import) !! 1%nat
  = heap_after_import !! 1%nat.
Proof.
  assert (Hr : 1%nat <> from_option id (default_env_vars step_defaults) None)
    by discriminate.
  exact (promote_single_step_frame one_file "/ci" step_defaults all_params
           None None heap_after_import 1%nat Hr).
Defined.

Lemma promote_single_step_appends_before_failing_witness :
  exists h',
    promote_single_step no_files "/ci" step_defaults all_params None None
                        heap_after_import
    = (h', inl (OSError "/ci/steps/promote_step.py"))
    /\ h' !! 0%nat
       = Some [[("name", "GARDENLINUX_PATH");
                ("value", "/workspace/gardenlinux_git")]].
Proof.
  assert (Hfs : no_files (promote_script_path "/ci") = None) by reflexivity.
  assert (Hl : heap_after_import
               !! from_option id (default_env_vars step_defaults) None
               = Some [])
    by (unfold heap_after_import; apply lookup_insert_eq).
  exact (promote_single_step_appends_before_failing no_files "/ci"
           step_defaults all_params None None heap_after_import [] Hfs Hl).
Defined.

Lemma promote_steps_share_default_witness :
  let (h', rs) :=
    promote_steps one_file "/ci" step_defaults
                  [all_params; all_params; all_params] heap_after_import in
  h' !! 0%nat
  = Some ([] ++ map gardenlinux_path_entry
                    [all_params; all_params; all_params])%list
  /\ Forall (fun r => exists step step_params,
               r = inr (step, step_params) /\ ts_env step = 0%nat) rs.
Proof.
  assert (Hfs : one_file (promote_script_path "/ci") = Some "import promote")
    by reflexivity.
  assert (Hl : heap_after_import !! default_env_vars step_defaults = Some [])
    by (unfold heap_after_import; apply lookup_insert_eq).
  exact (promote_steps_share_default one_file "/ci" step_defaults
           [all_params; all_params; all_params] heap_after_import []
           "import promote" Hfs Hl).
Defined.

Lemma shared_list_changes_earlier_step_witness :
  exists clone clone_params promote promote_params h',
    clone_step two_files "/ci" step_defaults all_params more_params
               (Some 2%nat) None
    = inr (clone, clone_params)
    /\ promote_single_step two_files "/ci" step_defaults all_params
                           (Some 2%nat) None heap_with_caller_list
       = (h', inr (promote, promote_params))
    /\ h' !! ts_env clone
       = Some [[("name", "HOME"); ("value", "/root")];
               [("name", "GARDENLINUX_PATH");
                ("value", "/workspace/gardenlinux_git")]].
Proof.
  assert (Hclone : two_files (path_join (steps_dir "/ci") "clone_repo_step.py")
                   = Some "import clone") by reflexivity.
  assert (Hpromote : two_files (promote_script_path "/ci")
                     = Some "import promote") by reflexivity.
  assert (Hl : heap_with_caller_list !! 2%nat
               = Some [[("name", "HOME"); ("value", "/root")]])
    by (unfold heap_with_caller_list; apply lookup_insert_eq).
  destruct (shared_list_changes_earlier_step two_files "/ci" step_defaults
              step_defaults all_params more_params None
              heap_with_caller_list 2%nat _ _ _ Hclone Hpromote Hl)
    as (clone & cps & promote & pps & h' & H1 & H2 & _ & _ & _ & H3).
  exists clone, cps, promote, pps, h'.
  split; [exact H1 | split; [exact H2 | exact H3]].
Defined.

Lemma promote_step_script_witness :
  exists step,
    promote_step one_file "/ci" step_defaults all_params more_params
                 all_results None None
    = inr (step,
           [cicd_cfg_name all_params; gardenlinux_committish all_params;
            flavour_set_name more_params; gardenlinux_epoch all_params;
            promote_target more_params; build_targets all_params;
            version all_params])
    /\ ts_env step = 0%nat.
Proof.
  assert (Hfs : one_file (promote_script_path "/ci") = Some "import promote")
    by reflexivity.
  destruct (promote_step_script one_file "/ci" step_defaults all_params
              more_params all_results None None "import promote" Hfs)
    as (step & Hrun & _ & Henv & _).
  exists step. split; [exact Hrun | exact Henv].
Defined.

End BuildersMoreExamples.

(** * More on the credential manager *)

Section CredentialMore.
Import Py CredentialManager.
Local Open Scope string_scope.

Lemma equals_value (m : CCconfigPrecedence) (s : string) :
  equals m (Str s) = true <-> s = value m.
Proof.
  cbn [equals]. rewrite String.eqb_eq. split; congruence.
Qed.

Lemma value_inj (m m' : CCconfigPrecedence) : value m = value m' -> m = m'.
Proof. destruct m, m'; (reflexivity || discriminate). Qed.

(** The values the command line option accepts are exactly the texts that
    [equals] recognises for some member of the enumeration, each for one
    member only; the default of the option is the text of [PROBE]. *)
Theorem choices_name_the_members (s : string) :
  (In s choices <-> exists m, equals m (Str s) = true)
  /\ (forall m m', equals m (Str s) = true -> equals m' (Str s) = true ->
                   m = m')
  /\ In default_choice choices
  /\ equals PROBE (Str default_choice) = true.
Proof.
  split; [|split; [|split]].
  - unfold choices, members. cbn [map In]. split.
    + intros [<-|[<-|[<-|[]]]]; [exists ALWAYS | exists PROBE | exists NEVER];
        reflexivity.
    + intros [m Hm]. apply equals_value in Hm. subst s.
      destruct m; auto.
  - intros m m' Hm Hm'. apply equals_value in Hm, Hm'.
    apply value_inj. congruence.
  - cbn. auto.
  - reflexivity.
Qed.

(** Given as the text of a member, the policy selects the secret service
    exactly for [ALWAYS], and for [PROBE] when both environment variables
    are set to a non-empty value. *)
Theorem value_policy_decides (env : environ) (m : CCconfigPrecedence) :
  use_cc_config_server (snd (__init__ env (Str (value m)))) = true
  <-> m = ALWAYS
      \/ (m = PROBE
          /\ exists endpoint cfg_name,
               env !! "SECRETS_SERVER_ENDPOINT" = Some endpoint
               /\ endpoint <> ""
               /\ env !! "SECRETS_SERVER_CONCOURSE_CFG_NAME" = Some cfg_name
               /\ cfg_name <> "").
Proof.
  rewrite <- available_iff. unfold __init__.
  destruct m; cbn [value equals];
    [ change (String.eqb "always" "always") with true
    | change (String.eqb "always" "probe") with false;
      change (String.eqb "probe" "probe") with true
    | change (String.eqb "always" "never") with false;
      change (String.eqb "probe" "never") with false ];
    cbn [orb andb].
  - split; [auto | reflexivity].
  - destruct (cc_config_server_available env); cbn [snd use_cc_config_server].
    + split; [auto | reflexivity].
    + split; [discriminate|]. intros [H|[_ H]]; discriminate.
  - cbn [snd use_cc_config_server]. split; [discriminate|].
    intros [H|[H _]]; discriminate.
Qed.

(** A text that is not among the choices of the option is no error: the
    manager is built, reports that it reads the environment, and works in
    local mode. *)
Theorem unknown_policy_is_local (env : environ) (s : string) :
  ~ In s choices ->
  __init__ env (Str s)
  = ([LogInfo "Obtaining cloud provider credentials from environment"],
     mkInstance false).
Proof.
  intros Hs. unfold __init__.
  assert (Ha : equals ALWAYS (Str s) = false).
  { destruct (equals ALWAYS (Str s)) eqn:E; [|reflexivity].
    apply equals_value in E. subst s. exfalso. apply Hs. cbn. auto. }
  assert (Hp : equals PROBE (Str s) = false).
  { destruct (equals PROBE (Str s)) eqn:E; [|reflexivity].
    apply equals_value in E. subst s. exfalso. apply Hs. cbn. auto. }
  now rewrite Ha, Hp.
Qed.

Lemma serve_all_cons (self : instance) r rs :
  serve_all self (r :: rs) = (serve self r ++ serve_all self rs)%list.
Proof. reflexivity. Qed.

(** Whatever is asked of a manager in local mode, the secret service is
    never called; whatever is asked of a manager in secret-service mode,
    no credentials of the local environment are read. The policy texts
    never and always give such managers in every environment. *)
Theorem modes_keep_apart (env : environ) (rs : list request) :
  Forall (fun c => uses_secret_service c = false)
         (serve_all (snd (__init__ env (Str "never"))) rs)
  /\ Forall (fun c => uses_local_credentials c = false)
            (serve_all (snd (__init__ env (Str "always"))) rs).
Proof.
  split.
  - induction rs as [|r rs IH]; [constructor|].
    rewrite serve_all_cons. apply Forall_app. split; [|exact IH].
    destruct r; cbn; repeat constructor.
  - induction rs as [|r rs IH]; [constructor|].
    rewrite serve_all_cons. apply Forall_app. split; [|exact IH].
    destruct r; cbn; repeat constructor.
Qed.

End CredentialMore.

Section CredentialMoreExamples.
Import Py CredentialManager.
Local Open Scope string_scope.

Lemma unknown_policy_is_local_witness :
  __init__ ∅ (Str "ALWAYS")
  = ([LogInfo "Obtaining cloud provider credentials from environment"],
     mkInstance false).
Proof.
  assert (Hs : ~ In "ALWAYS" choices)
    by (cbn; intros [H|[H|[H|[]]]]; discriminate H).
  exact (unknown_policy_is_local ∅ "ALWAYS" Hs).
Defined.

End CredentialMoreExamples.

(** * More on the promotion orchestrator *)

Section PromoteMore.
Import Py Promote Spec.
Local Open Scope string_scope.

Variable run_publish :
  publish_routine -> OnlineReleaseManifest -> CicdCfg ->
  exn + OnlineReleaseManifest.
Variable run_cleanup :
  cleanup_routine -> OnlineReleaseManifest -> CicdCfg -> exn + unit.

Lemma select_none release cicd_cfg :
  ~ In (platform release) (with_cleanup ++ without_cleanup)%list ->
  select release cicd_cfg = None.
Proof.
  unfold select, with_cleanup, without_cleanup. cbn [app In]. intros Hp.
  repeat match goal with
         | |- context [String.eqb ?a ?b] =>
             destruct (String.eqb_spec a b) as [Heq|?];
             [exfalso; apply Hp; rewrite Heq; auto 10|]
         end.
  reflexivity.
Qed.

(** A platform that is none of the six known ones is not published: a
    warning is logged, no provider routine is called, and the release is
    returned as it was given. *)
Theorem unknown_platform_not_published release cicd_cfg :
  ~ In (platform release) (with_cleanup ++ without_cleanup)%list ->
  publish_image run_publish run_cleanup release cicd_cfg
  = ([LogInfo "running release for" (platform release);
      LogWarning "do not know how to publish" (platform release)],
     inr release).
Proof.
  intros Hp. unfold publish_image. now rewrite (select_none _ _ Hp).
Qed.

(** For azure the routine that publishes to the shared image gallery is
    called exactly when the configuration names a gallery (a name that is
    not empty), the plain azure routine otherwise; nothing else is called
    when the routine returns. *)
Theorem azure_routine_by_gallery_name release cicd_cfg :
  platform release = "azure" ->
  let f := if truthy (shared_gallery_cfg_name cicd_cfg)
           then _publish_azure_shared_image_gallery
           else _publish_azure_image in
  trace (publish_image run_publish run_cleanup release cicd_cfg)
  = ([LogInfo "running release for" "azure"; CallPublish f]
     ++ match run_publish f release cicd_cfg with
        | inl e => [PrintExc e;
                    LogWarning "do not know how to cleanup" "azure"]
        | inr _ => []
        end)%list
  /\ outcome (publish_image run_publish run_cleanup release cicd_cfg)
     = run_publish f release cicd_cfg.
Proof.
  intros Hp f. unfold publish_image, select, call_publish. rewrite Hp.
  cbn [String.eqb Ascii.eqb Bool.eqb andb]. fold f.
  cbn. destruct (run_publish f release cicd_cfg); split; reflexivity.
Qed.

End PromoteMore.

Section CleanupAwsFacts.
Import Py Promote CleanupAws.
Local Open Scope string_scope.

Variable target_image_name_for_release : OnlineReleaseManifest -> string.
Variable unregister_images_by_name : string -> string -> option exn.

(** The cleanup of aws asks every configured account, in the order of the
    configuration, to unregister the images of the release name; it
    returns when every account did. *)
Theorem cleanup_aws_every_account release (aws_cfg_names : list string) :
  Forall (fun aws_cfg_name =>
            unregister_images_by_name aws_cfg_name
              (target_image_name_for_release release) = None)
         aws_cfg_names ->
  _cleanup_aws target_image_name_for_release unregister_images_by_name
               release aws_cfg_names
  = (map (fun aws_cfg_name =>
            UnregisterImages aws_cfg_name
                             (target_image_name_for_release release))
         aws_cfg_names,
     inr tt).
Proof.
  unfold _cleanup_aws.
  induction 1 as [|aws_cfg_name rest Hone _ IH]; [reflexivity|].
  cbn [unregister_in map]. rewrite Hone, IH. reflexivity.
Qed.

(** When an account fails, its exception leaves the cleanup at once: the
    accounts before it have been asked, the accounts after it are never
    asked. *)
Theorem cleanup_aws_stops_at_failure release
    (before after : list string) (failing : string) (e : exn) :
  Forall (fun aws_cfg_name =>
            unregister_images_by_name aws_cfg_name
              (target_image_name_for_release release) = None)
         before ->
  unregister_images_by_name failing (target_image_name_for_release release)
  = Some e ->
  _cleanup_aws target_image_name_for_release unregister_images_by_name
               release (before ++ failing :: after)%list
  = (map (fun aws_cfg_name =>
            UnregisterImages aws_cfg_name
                             (target_image_name_for_release release))
         (before ++ [failing])%list,
     inl e).
Proof.
  unfold _cleanup_aws. intros Hbefore Hfail.
  induction Hbefore as [|aws_cfg_name rest Hone _ IH].
  - cbn. now rewrite Hfail.
  - cbn [app unregister_in map]. rewrite Hone, IH. reflexivity.
Qed.

End CleanupAwsFacts.

(** * More on the command line *)

Section CliMore.
Import Py Cli Spec.
Local Open Scope string_scope.

Variable workingtree_version : string.
Variable download_file : string -> string -> string -> option exn.
Variable path_exists : string -> bool.
Variable cfg : cicd_cfg.
Variable find_release : string -> option OnlineReleaseManifest.
Variable other_symbols : string -> option (M event retval).

Lemma log_name_eqb (n : string) :
  n = "log" \/ n = "logs" ->
  String.eqb n "log" || String.eqb n "logs" = true.
Proof. intros [-> | ->]; reflexivity. Qed.

(** A request for the logs of a manifest without logs (none, or an empty
    key) prints an error and gives result code 1; the object store is not
    asked, and the paths of the manifest play no part. *)
Theorem no_logs_no_download c n outfile manifest :
  n = "log" \/ n = "logs" ->
  logs manifest = NoLogs \/ logs manifest = LogKey "" ->
  _download_release_artifact download_file c n outfile manifest
  = ([Print "Error: No logs attached to release manifest"], inr 1).
Proof.
  intros Hn Hlogs. unfold _download_release_artifact.
  rewrite (log_name_eqb n Hn).
  destruct Hlogs as [-> | ->]; reflexivity.
Qed.

(** A request for the logs fetches the object the log reference names: a
    structured reference gives its own bucket and key, a bare key is looked
    up in the bucket of the build configuration. *)
Theorem log_reference_resolved c n outfile manifest bucket key :
  n = "log" \/ n = "logs" ->
  (exists f, logs manifest = LogFile f
             /\ bucket = s3_bucket_name f /\ key = s3_key f)
  \/ (logs manifest = LogKey key /\ key <> ""
      /\ bucket = s3_bucket_name_of_build c) ->
  download_file bucket key outfile = None ->
  _download_release_artifact download_file c n outfile manifest
  = ([Print ("Downloading object with S3-key: " ++ key ++ " from bucket "
             ++ bucket ++ ", to " ++ outfile);
      S3Download (aws_cfg_name c) bucket key outfile],
     inr 0).
Proof.
  intros Hn Hlogs Hdl. unfold _download_release_artifact, _download_obj_to_file.
  rewrite (log_name_eqb n Hn).
  destruct Hlogs as [(f & -> & -> & ->) | (-> & Hkey & ->)].
  - cbn. now rewrite Hdl.
  - destruct key as [|a key]; [contradiction|]. cbn. now rewrite Hdl.
Qed.

Lemma matching_skips n (before : list S3_ReleaseFile) rest :
  Forall (fun entry => name entry <> n) before ->
  matching n (before ++ rest)%list = matching n rest.
Proof.
  induction 1 as [|x before Hx _ IH]; [reflexivity|].
  unfold matching in *. cbn [app List.filter].
  destruct (String.eqb_spec (name x) n); [contradiction | exact IH].
Qed.

(** A request for a named artifact fetches the first entry of that name in
    the order of the paths list, whatever follows it; a warning is printed
    exactly when a later entry has the same name. *)
Theorem first_entry_in_list_order c n outfile manifest before first after :
  named n ->
  paths manifest = (before ++ first :: after)%list ->
  Forall (fun entry => name entry <> n) before ->
  name first = n ->
  download_file (s3_bucket_name first) (s3_key first) outfile = None ->
  _download_release_artifact download_file c n outfile manifest
  = (match matching n after with
     | [] => []
     | _ :: _ =>
         [Print ("Warning.: Found more than one file with name " ++ n
                 ++ ", using first one")]
     end
     ++ [Print ("Downloading object with S3-key: " ++ s3_key first
                ++ " from bucket " ++ s3_bucket_name first ++ ", to "
                ++ outfile);
         S3Download (aws_cfg_name c) (s3_bucket_name first) (s3_key first)
                    outfile],
     inr 0)%list.
Proof.
  intros Hn Hpaths Hbefore Hfirst Hdl.
  assert (Hmatch : matching n (paths manifest) = first :: matching n after).
  { rewrite Hpaths, (matching_skips n before _ Hbefore).
    unfold matching. cbn [List.filter].
    destruct (String.eqb_spec (name first) n); [reflexivity | contradiction]. }
  unfold _download_release_artifact, _download_obj_to_file.
  rewrite (named_eqb n Hn), Hmatch, more_than_one.
  destruct (matching n after); cbn; rewrite Hdl; reflexivity.
Qed.

(** A program name that is no command of the module: the error names the
    command looked up, hyphens turned into underscores, and the process
    ends with status 1. *)
Theorem unknown_command_exits_1 argv0 parsed :
  module_symbols workingtree_version download_file path_exists cfg
                 find_release other_symbols parsed
                 (replace "-" "_" (basename argv0)) = None ->
  main workingtree_version download_file path_exists cfg find_release
       other_symbols argv0 parsed
  = ([Print ("ERROR: " ++ replace "-" "_" (basename argv0)
             ++ " is not defined")],
     inl (SystemExit 1))
  /\ exit_status (main workingtree_version download_file path_exists cfg
                       find_release other_symbols argv0 parsed) = 1.
Proof.
  intros Hsym. unfold main. rewrite Hsym. split; reflexivity.
Qed.

(** [main] does what the command does and nothing more: the same events,
    and the same exit status, which is that of an exception the command
    raises and 0 whenever the command returns. *)
Theorem main_runs_the_command argv0 parsed func :
  module_symbols workingtree_version download_file path_exists cfg
                 find_release other_symbols parsed
                 (replace "-" "_" (basename argv0)) = Some func ->
  trace (main workingtree_version download_file path_exists cfg find_release
              other_symbols argv0 parsed) = trace func
  /\ exit_status (main workingtree_version download_file path_exists cfg
                       find_release other_symbols argv0 parsed)
     = exit_status func
  /\ (forall code, outcome func = inr code -> exit_status func = 0).
Proof.
  intros Hsym. unfold main. rewrite Hsym.
  destruct func as [t [e|code]]; cbn.
  - repeat split. intros code H. discriminate H.
  - rewrite app_nil_r. repeat split.
Qed.

(** When no release matches, [retrieve-single-manifest] prints an error
    after the arguments and exits with status 1, without any download. *)
Theorem missing_release_exits_1 argv0 parsed t v :
  replace "-" "_" (basename argv0) = "retrieve_single_manifest" ->
  _fix_version workingtree_version (version parsed) (gardenlinux_epoch parsed)
  = (t, inr v) ->
  find_release v = None ->
  main workingtree_version download_file path_exists cfg find_release
       other_symbols argv0 parsed
  = ((t ++ [PrintUsedArgs; Print "ERROR: no such release found"])%list,
     inl (SystemExit 1))
  /\ exit_status (main workingtree_version download_file path_exists cfg
                       find_release other_symbols argv0 parsed) = 1.
Proof.
  intros Hcmd Hfix Hrel. unfold main, module_symbols. rewrite Hcmd.
  cbn [String.eqb Ascii.eqb Bool.eqb andb].
  unfold retrieve_single_manifest. rewrite Hfix. cbn. rewrite Hrel. cbn.
  split; reflexivity.
Qed.

(** With an output file given, the file is closed and, where it exists,
    removed before the artifact is looked for: when the manifest has no
    entry of the requested name, the file is gone and nothing has been
    downloaded. *)
Theorem outfile_removed_without_download parsed t v release n f :
  _fix_version workingtree_version (version parsed) (gardenlinux_epoch parsed)
  = (t, inr v) ->
  find_release v = Some release ->
  download parsed = Some n -> n <> "" -> named n ->
  outfile parsed = Some f -> path_exists f = true ->
  matching n (paths release) = [] ->
  retrieve_single_manifest workingtree_version download_file path_exists cfg
                           find_release parsed
  = ((t ++ [PrintUsedArgs; CloseFile f; RemoveFile f;
            Print ("Error: No object in release manifest with name " ++ n)])
     %list,
     inr (Some 1)).
Proof.
  intros Hfix Hrel Hd Hn Hnamed Hout Hex Hnone.
  pose proof (download_not_found download_file cfg n f release Hnamed Hnone)
    as Hdl.
  unfold retrieve_single_manifest. rewrite Hfix, Hd, Hout.
  rewrite (truthy_Some n Hn). cbn [str_of]. unfold when. rewrite Hex.
  unfold bind at 1. unfold bind at 1. cbn [emit]. rewrite Hrel.
  unfold bind at 2 3 4. cbn [emit ret app]. unfold bind at 1.
  rewrite Hdl. reflexivity.
Qed.

End CliMore.

Section PublishPhase.
Import Py Cli.
Local Open Scope string_scope.

Variable target : string -> option string.




End PublishPhase.

Section PromoteMoreExamples.
Import Py Promote CleanupAws Spec Examples.
Local Open Scope string_scope.

Lemma unknown_platform_not_published_witness :
  publish_image publish_fails cleanup_fails vmware_release plain_cfg
  = ([LogInfo "running release for" "vmware";
      LogWarning "do not know how to publish" "vmware"],
     inr vmware_release).
Proof.
  assert (Hp : ~ In (platform vmware_release)
                    (with_cleanup ++ without_cleanup)%list)
    by (cbn; intros [H|[H|[H|[H|[H|[H|[]]]]]]]; discriminate H).
  exact (unknown_platform_not_published publish_fails cleanup_fails
           vmware_release plain_cfg Hp).
Defined.

Lemma azure_routine_by_gallery_name_witness :
  trace (publish_image publish_works cleanup_works azure_release gallery_cfg)
  = [LogInfo "running release for" "azure";
     CallPublish _publish_azure_shared_image_gallery]
  /\ trace (publish_image publish_fails cleanup_works azure_release plain_cfg)
     = [LogInfo "running release for" "azure";
        CallPublish _publish_azure_image;
        PrintExc (ExternalError "publish failed");
        LogWarning "do not know how to cleanup" "azure"].
Proof.
  split.
  - exact (proj1 (azure_routine_by_gallery_name publish_works cleanup_works
                    azure_release gallery_cfg eq_refl)).
  - exact (proj1 (azure_routine_by_gallery_name publish_fails cleanup_works
                    azure_release plain_cfg eq_refl)).
Defined.

Lemma publish_image_returns_witness :
  publish_image publish_works cleanup_fails aws_release plain_cfg
  = ([LogInfo "running release for" "aws"; CallPublish _publish_aws_image],
     inr (mkManifest "aws" (Some "image-1"))).
Proof.
  exact (publish_image_returns publish_works cleanup_fails aws_release
           plain_cfg _publish_aws_image (Some Promote._cleanup_aws)
           (mkManifest "aws" (Some "image-1")) eq_refl eq_refl).
Defined.

Lemma cleanup_failure_propagates_witness :
  publish_image publish_fails cleanup_fails aws_release plain_cfg
  = ([LogInfo "running release for" "aws"; CallPublish _publish_aws_image;
      PrintExc (ExternalError "publish failed");
      CallCleanup Promote._cleanup_aws],
     inl (ExternalError "cleanup failed")).
Proof.
  exact (cleanup_failure_propagates publish_fails cleanup_fails aws_release
           plain_cfg _publish_aws_image Promote._cleanup_aws
           (ExternalError "publish failed") (ExternalError "cleanup failed")
           eq_refl eq_refl eq_refl).
Defined.

Lemma cleanup_aws_every_account_witness :
  CleanupAws._cleanup_aws image_name second_account_fails aws_release
                          ["account-a"; "account-c"]
  = ([UnregisterImages "account-a" "gardenlinux-aws-27.1";
      UnregisterImages "account-c" "gardenlinux-aws-27.1"],
     inr tt).
Proof.
  assert (Hall : Forall (fun aws_cfg_name =>
                           second_account_fails aws_cfg_name
                             (image_name aws_release) = None)
                        ["account-a"; "account-c"])
    by (repeat constructor).
  exact (cleanup_aws_every_account image_name second_account_fails
           aws_release ["account-a"; "account-c"] Hall).
Defined.

Lemma cleanup_aws_stops_at_failure_witness :
  CleanupAws._cleanup_aws image_name second_account_fails aws_release
                          ["account-a"; "account-b"; "account-c"]
  = ([UnregisterImages "account-a" "gardenlinux-aws-27.1";
      UnregisterImages "account-b" "gardenlinux-aws-27.1"],
     inl (ExternalError "access denied")).
Proof.
  assert (Hbefore : Forall (fun aws_cfg_name =>
                              second_account_fails aws_cfg_name
                                (image_name aws_release) = None)
                           ["account-a"])
    by (repeat constructor).
  exact (cleanup_aws_stops_at_failure image_name second_account_fails
           aws_release ["account-a"] ["account-c"] "account-b"
           (ExternalError "access denied") Hbefore eq_refl).
Defined.

End PromoteMoreExamples.

Section CliMoreExamples.
Import Py Cli Spec Examples.
Local Open Scope string_scope.

Lemma no_logs_no_download_witness :
  _download_release_artifact download_works build_cfg "logs" "build_log.zip"
                             manifest_aab
  = ([Print "Error: No logs attached to release manifest"], inr 1).
Proof.
  exact (no_logs_no_download download_works build_cfg "logs" "build_log.zip"
           manifest_aab (or_intror eq_refl) (or_introl eq_refl)).
Defined.

Lemma log_reference_resolved_witness :
  _download_release_artifact download_works build_cfg "log" "build_log.zip"
                             manifest_with_logs
  = ([Print ("Downloading object with S3-key: objects/log from bucket "
             ++ "bucket-logs, to build_log.zip");
      S3Download "default" "bucket-logs" "objects/log" "build_log.zip"],
     inr 0).
Proof.
  assert (Href :
    (exists f, logs manifest_with_logs = LogFile f
               /\ "bucket-logs" = s3_bucket_name f
               /\ "objects/log" = s3_key f)
    \/ (logs manifest_with_logs = LogKey "objects/log" /\ "objects/log" <> ""
        /\ "bucket-logs" = s3_bucket_name_of_build build_cfg)).
  { left. eexists. split; [reflexivity | split; reflexivity]. }
  exact (log_reference_resolved download_works build_cfg "log"
           "build_log.zip" manifest_with_logs "bucket-logs" "objects/log"
           (or_introl eq_refl) Href eq_refl).
Defined.

Lemma first_entry_in_list_order_witness :
  _download_release_artifact download_works build_cfg "b" "b" manifest_aab
  = ([Print ("Downloading object with S3-key: objects/b from bucket "
             ++ "bucket-1, to b");
      S3Download "default" "bucket-1" "objects/b" "b"],
     inr 0).
Proof.
  assert (Hn : named "b") by (split; discriminate).
  assert (Hbefore : Forall (fun entry => name entry <> "b")
                      [mkS3File "a" ".tar" "objects/a1" "bucket-1";
                       mkS3File "a" ".raw" "objects/a2" "bucket-2"])
    by (repeat constructor; discriminate).
  exact (first_entry_in_list_order download_works build_cfg "b" "b"
           manifest_aab
           [mkS3File "a" ".tar" "objects/a1" "bucket-1";
            mkS3File "a" ".raw" "objects/a2" "bucket-2"]
           (mkS3File "b" ".log" "objects/b" "bucket-1") []
           Hn eq_refl Hbefore eq_refl eq_refl).
Defined.

Lemma unknown_command_exits_1_witness :
  exit_status (main "today" download_works nothing_exists build_cfg
                    release_found no_other_symbols "bin/no-such-command"
                    (mkParsed "318.9" 318 None None)) = 1.
Proof.
  exact (proj2 (unknown_command_exits_1 "today" download_works nothing_exists
                  build_cfg release_found no_other_symbols
                  "bin/no-such-command" (mkParsed "318.9" 318 None None)
                  eq_refl)).
Defined.

Lemma main_runs_the_command_witness :
  trace (main "today" download_works nothing_exists build_cfg release_found
              no_other_symbols "bin/retrieve-single-manifest"
              (mkParsed "318.9" 318 None None))
  = [PrintUsedArgs; YamlDump].
Proof.
  exact (proj1 (main_runs_the_command "today" download_works nothing_exists
                  build_cfg release_found no_other_symbols
                  "bin/retrieve-single-manifest"
                  (mkParsed "318.9" 318 None None)
                  (retrieve_single_manifest "today" download_works
                     nothing_exists build_cfg release_found
                     (mkParsed "318.9" 318 None None))
                  eq_refl)).
Defined.

Lemma missing_release_exits_1_witness :
  exit_status (main "today" download_works nothing_exists build_cfg
                    release_missing no_other_symbols
                    "bin/retrieve-single-manifest"
                    (mkParsed "318.9" 318 (Some "a") None)) = 1.
Proof.
  exact (proj2 (missing_release_exits_1 "today" download_works nothing_exists
                  build_cfg release_missing no_other_symbols
                  "bin/retrieve-single-manifest"
                  (mkParsed "318.9" 318 (Some "a") None) [] "318.9"
                  eq_refl eq_refl eq_refl)).
Defined.

Lemma outfile_removed_without_download_witness :
  retrieve_single_manifest "today" download_works everything_exists build_cfg
                           release_found
                           (mkParsed "318.9" 318 (Some "c") (Some "out.bin"))
  = ([PrintUsedArgs; CloseFile "out.bin"; RemoveFile "out.bin";
      Print "Error: No object in release manifest with name c"],
     inr (Some 1)).
Proof.
  assert (Hn : "c" <> "") by discriminate.
  assert (Hnamed : named "c") by (split; discriminate).
  exact (outfile_removed_without_download "today" download_works
           everything_exists build_cfg release_found
           (mkParsed "318.9" 318 (Some "c") (Some "out.bin")) [] "318.9"
           manifest_aab "c" "out.bin" eq_refl eq_refl eq_refl Hn Hnamed
           eq_refl eq_refl eq_refl).
Defined.



End CliMoreExamples.

Section VersionAndPhase.
Import Py Cli.
Local Open Scope string_scope.

(** Whatever version [_fix_version] returns, the commands that derive the
    epoch from a version can do so without failing, and where that epoch is
    not the epoch given, the mismatch has been printed as a warning. *)
Theorem fixed_version_has_epoch workingtree_version parsed_version
    parsed_epoch t result :
  _fix_version workingtree_version parsed_version parsed_epoch
  = (t, inr result) ->
  exists leading,
    epoch_of_version result = ([], inr leading)
    /\ (leading = parsed_epoch
        \/ In (Print (">>> WARNING: version " ++ result
                      ++ " does not match epoch " ++ str_of_int parsed_epoch
                      ++ "! <<<")) t).
Proof.
  unfold _fix_version, epoch_of_version, int, when. intros H.
  destruct (String.eqb parsed_version workingtree_version); cbn [negb] in H;
    destruct (pattern_match parsed_version); cbn in H;
    match type of H with
    | context [parse_int (first_segment ?r)] =>
        destruct (parse_int (first_segment r)) as [leading|] eqn:Hint
    end; cbn in H; try discriminate H;
    destruct (parsed_epoch =? leading)%Z eqn:He; cbn in H;
    injection H as <- <-; exists leading; rewrite Hint;
    (split; [reflexivity|]);
    first [ left; symmetry; now apply Z.eqb_eq
          | right; cbn [In]; auto ].
Qed.



End VersionAndPhase.

Section VersionExamples.
Import Py Cli.
Local Open Scope string_scope.

Lemma fixed_version_has_epoch_witness :
  exists leading,
    epoch_of_version "27.1-rc" = ([], inr leading)
    /\ (leading = 28
        \/ In (Print (">>> WARNING: version 27.1-rc does not match epoch "
                      ++ str_of_int 28 ++ "! <<<"))
              [Print ">>> WARNING: 27.1-rc is not a semver version! <<<";
               Print ">>> WARNING: version 27.1-rc does not match epoch 28! <<<"]).
Proof.
  exact (fixed_version_has_epoch "today" "27.1-rc" 28 _ "27.1-rc" eq_refl).
Defined.

End VersionExamples.
